(** * ClipMaster backend: the job API of [main.py] over the in-memory store

    A shallow embedding of [src/main.py] and [src/schemas.py].

    - Python values are the type [pyval]; a [dict] with string keys is a
      [gmap string pyval], so [d.get(k)] is [d !! k] and [d.update(u)] is
      [u ∪ d] (the left operand wins).
    - [_mem_jobs] is a [gmap string (gmap string pyval)], threaded through
      the handlers by the state-and-exception monad [M].
    - [main.py] imports [db] from a module [database] inside a [try]; the
      module is not part of the sources, the import falls to the [except]
      branch and [db] is [None].  The embedding is that of the memory path
      of [save_job], [get_job] and [update_job].
    - [time.time()] and [uuid.uuid4().hex] are inputs of the handlers.
      Python floats are idealised as exact rationals ([Q]): rounding of the
      binary64 operations is not modelled.
    - [json.loads], [float(str)] and [int(str)] belong to the Python
      runtime; they are the fields of the class [PyLib].  A reference
      instance ([RefLib]) implements them on plain JSON texts and decimal
      literals and is used to run the handlers on concrete requests. *)

From Stdlib Require Import ZArith QArith Qround Qminmax Lqa String Ascii List Lia Sorted.
From Stdlib Require Import Floats.
From stdpp Require Import gmap strings list fin_maps.
Import ListNotations.

#[local] Set Warnings "-register-all".
#[local] Open Scope string_scope.

(* ===================================================================== *)
(** ** Python values and the built-ins the handlers use                   *)
(* ===================================================================== *)

Module Py.

Inductive pyval : Type :=
| VNone
| VBool (b : bool)
| VInt (n : Z)
| VFloat (q : Q)
| VStr (s : string)
| VList (l : list pyval)
| VDict (d : gmap string pyval).

(** Exceptions that can leave a handler. *)
Inductive error : Type :=
| HTTPException (status_code : Z) (detail : string)
| ValidationError      (* pydantic *)
| TypeError
| ValueError
| AttributeError.

Inductive result (A : Type) : Type :=
| Ok (a : A)
| Raise (e : error).
Arguments Ok {A} a.
Arguments Raise {A} e.

(** What [json.loads] returns. *)
Inductive json : Type :=
| JNull
| JBool (b : bool)
| JInt (n : Z)
| JFloat (q : Q)
| JStr (s : string)
| JArr (l : list json)
| JObj (l : list (string * json)).

(** Runtime functions on strings: [None] stands for a raised exception. *)
Class PyLib : Type := {
  json_loads : string -> option json;
  float_of_str : string -> option Q;
  int_of_str : string -> option Z
}.

Definition Qltb (a b : Q) : bool := negb (Qle_bool b a).

(** [max(a, x)] returns its first argument unless a later one is larger;
    [min(a, x)] returns its first argument unless a later one is smaller. *)
Definition py_max (a x : Q) : Q := if Qltb a x then x else a.
Definition py_min (a x : Q) : Q := if Qltb x a then x else a.

(** [int(x)] on a float truncates towards zero. *)
Definition Qtrunc (q : Q) : Z := if Qltb q 0%Q then Qceiling q else Qfloor q.

(** Truth value of an object, as [if x] and [not x] test it. *)
Definition truthy (v : pyval) : bool :=
  match v with
  | VNone => false
  | VBool b => b
  | VInt n => negb (n =? 0)%Z
  | VFloat q => negb (Qeq_bool q 0%Q)
  | VStr s => negb (String.eqb s "")
  | VList l => match l with [] => false | _ => true end
  | VDict d => negb (Nat.eqb (size d) 0)
  end.

Definition str_truthy (s : string) : bool := negb (String.eqb s "").

(** [v != s] for a string constant [s]. *)
Definition ne_str (v : pyval) (s : string) : bool :=
  match v with
  | VStr s' => negb (String.eqb s' s)
  | _ => true
  end.

Section WithLib.
Context {L : PyLib}.

(** [float(v)] *)
Definition py_float (v : pyval) : result Q :=
  match v with
  | VBool b => Ok (if b then 1 else 0)%Q
  | VInt n => Ok (inject_Z n)
  | VFloat q => Ok q
  | VStr s => match float_of_str s with Some q => Ok q | None => Raise ValueError end
  | VNone | VList _ | VDict _ => Raise TypeError
  end.

(** [int(v)] *)
Definition py_int (v : pyval) : result Z :=
  match v with
  | VBool b => Ok (if b then 1 else 0)%Z
  | VInt n => Ok n
  | VFloat q => Ok (Qtrunc q)
  | VStr s => match int_of_str s with Some n => Ok n | None => Raise ValueError end
  | VNone | VList _ | VDict _ => Raise TypeError
  end.
End WithLib.

(** [s.lower()] on ASCII letters; other bytes are left as they are. *)
Definition lower_ascii (c : ascii) : ascii :=
  let n := nat_of_ascii c in
  if (65 <=? n)%nat && (n <=? 90)%nat then ascii_of_nat (n + 32) else c.

Fixpoint str_lower (s : string) : string :=
  match s with
  | EmptyString => EmptyString
  | String c s' => String (lower_ascii c) (str_lower s')
  end.

(** [x in l] for a list of strings. *)
Definition str_in (x : string) (l : list string) : bool :=
  existsb (String.eqb x) l.

End Py.
Import Py.

(* ===================================================================== *)
(** ** [schemas.py]: the pydantic models [Clip] and [Job]                 *)
(* ===================================================================== *)

Module Schemas.

Definition dump_opt_str (o : option string) : pyval :=
  match o with Some s => VStr s | None => VNone end.

Definition dump_opt_float (o : option Q) : pyval :=
  match o with Some q => VFloat q | None => VNone end.

(** Validation of an [Optional[str]] field: a string or [None]. *)
Definition opt_str (v : pyval) : result (option string) :=
  match v with
  | VNone => Ok None
  | VStr s => Ok (Some s)
  | _ => Raise ValidationError
  end.

(** Validation of an [Optional[float]] field: [None], a number, or a
    string that parses as a number (pydantic's lax mode). *)
Definition opt_float {L : PyLib} (v : pyval) : result (option Q) :=
  match v with
  | VNone => Ok None
  | VFloat q => Ok (Some q)
  | VInt n => Ok (Some (inject_Z n))
  | VBool b => Ok (Some (if b then 1 else 0)%Q)
  | VStr s =>
      match float_of_str s with
      | Some q => Ok (Some q)
      | None => Raise ValidationError
      end
  | VList _ | VDict _ => Raise ValidationError
  end.

Module Clip.
Record t : Type := {
  caption : option string;
  duration : option Q;
  aspect_ratio : option string;
  thumbnail_url : option string;
  download_url : option string
}.

(** [Clip(caption=.., duration=.., ..)]: the fields are validated in
    the order of their declaration. *)
Definition make {L : PyLib} (cap dur ar thumb down : pyval) : result t :=
  match opt_str cap, opt_float dur, opt_str ar, opt_str thumb, opt_str down with
  | Ok c, Ok d, Ok a, Ok th, Ok dl =>
      Ok {| caption := c; duration := d; aspect_ratio := a;
            thumbnail_url := th; download_url := dl |}
  | _, _, _, _, _ => Raise ValidationError
  end.

Definition model_dump (c : t) : gmap string pyval :=
  <["caption" := dump_opt_str (caption c)]>
  (<["duration" := dump_opt_float (duration c)]>
  (<["aspect_ratio" := dump_opt_str (aspect_ratio c)]>
  (<["thumbnail_url" := dump_opt_str (thumbnail_url c)]>
  (<["download_url" := dump_opt_str (download_url c)]> ∅)))).
End Clip.

Inductive JobStatus : Type := queued | processing | completed | failed.

Definition JobStatus_str (s : JobStatus) : string :=
  match s with
  | queued => "queued"
  | processing => "processing"
  | completed => "completed"
  | failed => "failed"
  end.

Inductive SourceType : Type := file | links.

Definition SourceType_str (s : SourceType) : string :=
  match s with file => "file" | links => "links" end.

Module Job.
Record t : Type := {
  status : JobStatus;
  progress : Z;
  message : option string;
  source_type : SourceType;
  original_filename : option string;
  sources : option (list string);
  clip_length : option string;
  aspect_ratio : option string;
  auto_highlights : bool;
  clips : option (list Clip.t);
  error : option string
}.

Definition model_dump (j : t) : gmap string pyval :=
  <["status" := VStr (JobStatus_str (status j))]>
  (<["progress" := VInt (progress j)]>
  (<["message" := dump_opt_str (message j)]>
  (<["source_type" := VStr (SourceType_str (source_type j))]>
  (<["original_filename" := dump_opt_str (original_filename j)]>
  (<["sources" := match sources j with
                  | Some l => VList (VStr <$> l)
                  | None => VNone
                  end]>
  (<["clip_length" := dump_opt_str (clip_length j)]>
  (<["aspect_ratio" := dump_opt_str (aspect_ratio j)]>
  (<["auto_highlights" := VBool (auto_highlights j)]>
  (<["clips" := match clips j with
                | Some l => VList ((fun c => VDict (Clip.model_dump c)) <$> l)
                | None => VNone
                end]>
  (<["error" := dump_opt_str (error j)]> ∅)))))))))).
End Job.

End Schemas.
Import Schemas.

(* ===================================================================== *)
(** ** [main.py]: the job store and the two handlers                      *)
(* ===================================================================== *)

Module Main.

(** [_mem_jobs] *)
Abbreviation mem_jobs := (gmap string (gmap string pyval)).

(** Computations over [_mem_jobs] that return or raise. *)
Definition M (A : Type) : Type := mem_jobs -> result A * mem_jobs.

#[global] Instance M_ret : MRet M := fun A a jobs => (Ok a, jobs).
#[global] Instance M_bind : MBind M := fun A B f m jobs =>
  match m jobs with
  | (Ok a, jobs') => f a jobs'
  | (Raise e, jobs') => (Raise e, jobs')
  end.

Definition raise {A : Type} (e : error) : M A := fun jobs => (Raise e, jobs).

Definition lift {A : Type} (r : result A) : M A := fun jobs => (r, jobs).

(** Memory path of [save_job]; [jid] is the value of [uuid.uuid4().hex]. *)
Definition save_job (jid : string) (doc : gmap string pyval) : M string :=
  fun jobs => (Ok jid, <[jid := <["_id" := VStr jid]> doc]> jobs).

Definition get_job (job_id : string) : M (option (gmap string pyval)) :=
  fun jobs => (Ok (jobs !! job_id), jobs).

Definition update_job (job_id : string) (updates : gmap string pyval) : M unit :=
  fun jobs =>
    match jobs !! job_id with
    | Some doc => (Ok tt, <[job_id := updates ∪ doc]> jobs)
    | None => (Ok tt, jobs)
    end.

Definition PROCESS_SECONDS : Q := 10.

(** Line 138: [max(0.0, time.time() - created_ts)] *)
Definition elapsed_time (created_ts now : Q) : Q := py_max 0 (now - created_ts).

(** An [UploadFile] is always true as a condition; only its [filename]
    is read. *)
Record UploadFile : Type := { filename : option string }.

Definition is_some {A : Type} (o : option A) : bool :=
  match o with Some _ => true | None => false end.

Section Handlers.
Context {L : PyLib}.

(** Lines 93-100: the strings of [sources] when it is a JSON array. *)
Definition parsed_links (sources : option string) : list string :=
  match sources with
  | Some s =>
      if str_truthy s then
        match json_loads s with
        | Some (JArr parsed) =>
            omap (fun x => match x with JStr u => Some u | _ => None end) parsed
        | _ => []
        end
      else []
  | None => []
  end.

(** Lines 93-102. *)
Definition link_list (source_url sources : option string) : list string :=
  let l := parsed_links sources in
  match source_url with
  | Some u => if str_truthy u && negb (str_in u l) then l ++ [u] else l
  | None => l
  end.

(** Lines 107-121: the dumped [Job] of a request whose links are [ll]. *)
Definition job_doc (file : option UploadFile) (ll : list string)
    (clip_length aspect_ratio auto_highlights : string) : gmap string pyval :=
  let source_type := if is_some file then Schemas.file else links in
  let auto_h := str_in (str_lower auto_highlights) ["true"; "1"; "yes"; "on"] in
  Job.model_dump {|
    Job.status := queued;
    Job.progress := 10;
    Job.message := Some "Queued for processing";
    Job.source_type := source_type;
    Job.original_filename := (match file with Some f => filename f | None => None end);
    Job.sources := (match source_type with links => Some ll | file => None end);
    Job.clip_length := Some clip_length;
    Job.aspect_ratio := Some aspect_ratio;
    Job.auto_highlights := auto_h;
    Job.clips := None;
    Job.error := None |}.

(** [POST /process] *)
Definition process (file : option UploadFile) (source_url sources : option string)
    (clip_length aspect_ratio auto_highlights : string)
    (uuid4_hex : string) (now : Q) : M (gmap string pyval) :=
  let ll := link_list source_url sources in
  if negb (is_some file) && (length ll =? 0)%nat then
    raise (HTTPException 400 "Provide a file or at least one link")
  else
    job_id ← save_job uuid4_hex
               (job_doc file ll clip_length aspect_ratio auto_highlights);
    update_job job_id {["created_ts" := VFloat now]};;
    mret {["job_id" := VStr job_id]}.

(** Line 141 *)
Definition progress_pct (elapsed : Q) : Z :=
  Qtrunc (py_min 95 ((elapsed / PROCESS_SECONDS) * 90) + 10).

(** Lines 156-171 *)
Definition example_clips (doc : gmap string pyval) : result (list pyval) :=
  let ar := default (VStr "auto") (doc !! "aspect_ratio") in
  let cl := default VNone (doc !! "clip_length") in
  match
    Clip.make (VStr "Top moment with highest energy")
      (if ne_str cl "auto" then cl else VInt 30)
      ar
      (VStr "https://images.unsplash.com/photo-1504384308090-c894fdcc538d?q=80&w=1280&auto=format&fit=crop")
      (VStr "https://file-examples.com/storage/fe0e7a8f6e2a6a5ef2d3b5f/2017/04/file_example_MP4_480_1_5MG.mp4")
  with
  | Raise e => Raise e
  | Ok c1 =>
      match
        Clip.make (VStr "Funny reaction with clean transcript")
          (VInt 20)
          ar
          (VStr "https://images.unsplash.com/photo-1524253482453-3fed8d2fe12b?q=80&w=1280&auto=format&fit=crop")
          (VStr "https://file-examples.com/storage/fe0e7a8f6e2a6a5ef2d3b5f/2017/04/file_example_MP4_1280_10MG.mp4")
      with
      | Raise e => Raise e
      | Ok c2 => Ok [VDict (Clip.model_dump c1); VDict (Clip.model_dump c2)]
      end
  end.

(** Lines 142-146 and 147-151: what a poll before the deadline writes
    and what it answers. *)
Definition processing_update (pct : Z) : gmap string pyval :=
  <["status" := VStr "processing"]>
  (<["progress" := VInt pct]>
  (<["message" := VStr "Analyzing scenes, audio and generating captions…"]> ∅)).

Definition processing_response (pct : Z) : gmap string pyval :=
  <["status" := VStr "processing"]>
  (<["progress" := VInt pct]>
  (<["message" := VStr "Working on your highlights…"]> ∅)).

(** Lines 172-177 *)
Definition completed_update (clips : list pyval) : gmap string pyval :=
  <["status" := VStr "completed"]>
  (<["progress" := VInt 100]>
  (<["message" := VStr "All done! Your clips are ready."]>
  (<["clips" := VList clips]> ∅))).

(** Lines 180-185 *)
Definition completed_response (doc : gmap string pyval) : result (gmap string pyval) :=
  match py_int (default (VInt 100) (doc !! "progress")) with
  | Raise e => Raise e
  | Ok progress =>
      Ok (<["status" := default (VStr "completed") (doc !! "status")]>
         (<["progress" := VInt progress]>
         (<["message" := default (VStr "") (doc !! "message")]>
         (<["clips" := default (VList []) (doc !! "clips")]> ∅))))
  end.

(** [GET /status/{job_id}].  [t0] is the clock read for the default of
    [doc.get('created_ts', time.time())], which Python evaluates
    whether the key is there or not; [now] is the clock read of
    line 138. *)
Definition status (job_id : string) (t0 now : Q) : M (gmap string pyval) :=
  found ← get_job job_id;
  match found with
  | None => raise (HTTPException 404 "Job not found")
  | Some doc =>
      if negb (truthy (VDict doc)) then raise (HTTPException 404 "Job not found")
      else
        created_ts ← lift (py_float (default (VFloat t0) (doc !! "created_ts")));
        let elapsed := elapsed_time created_ts now in
        if Qltb elapsed PROCESS_SECONDS then
          let pct := progress_pct elapsed in
          update_job job_id (processing_update pct);;
          mret (processing_response pct)
        else
          doc' ← (if negb (truthy (default VNone (doc !! "clips"))) then
                    clips ← lift (example_clips doc);
                    update_job job_id (completed_update clips);;
                    reread ← get_job job_id;
                    match reread with
                    | Some d => mret d
                    | None => raise AttributeError
                    end
                  else mret doc);
          lift (completed_response doc')
  end.
End Handlers.

End Main.
Import Main.

(* ===================================================================== *)
(** ** Line 141 in binary64 arithmetic                                    *)
(* ===================================================================== *)

(** The handlers above compute with exact rationals.  [Binary64] has the
    progress of line 141 with the operations of Python's floats, to run it
    at the ends of the ten-second window. *)
Module Binary64.

(** [int(x)] for a finite float *)
Definition trunc (x : float) : Z :=
  match Prim2SF x with
  | S754_finite s m e =>
      let v := if (0 <=? e)%Z then Z.shiftl (Zpos m) e else Z.shiftr (Zpos m) (- e) in
      if s then (- v)%Z else v
  | _ => 0%Z
  end.

Definition progress_pct (elapsed : float) : Z :=
  let x := ((elapsed / 10) * 90)%float in
  trunc ((if (x <? 95)%float then x else 95%float) + 10)%float.

End Binary64.

(* ===================================================================== *)
(** ** A reference instance of the runtime functions                      *)
(* ===================================================================== *)

(** [RefLib] reads JSON texts without [\u] escapes and decimal literals
    with an optional fraction and exponent.  It is the instance at which
    the handlers are run on concrete requests. *)
Module RefLib.

Definition dquote : ascii := "034"%char.
Definition backslash : ascii := "092"%char.

Definition is_ws (c : ascii) : bool :=
  let n := nat_of_ascii c in
  (n =? 32)%nat || (n =? 9)%nat || (n =? 10)%nat || (n =? 13)%nat.

Fixpoint skip_ws (s : string) : string :=
  match s with
  | String c s' => if is_ws c then skip_ws s' else s
  | EmptyString => s
  end.

Definition digit_val (c : ascii) : option Z :=
  let n := nat_of_ascii c in
  if (48 <=? n)%nat && (n <=? 57)%nat then Some (Z.of_nat (n - 48)) else None.

(** Reads a run of digits: its value after [acc], its length, the rest. *)
Fixpoint scan_digits (s : string) (acc : Z) (len : nat) : Z * nat * string :=
  match s with
  | String c s' =>
      match digit_val c with
      | Some d => scan_digits s' (acc * 10 + d)%Z (S len)
      | None => (acc, len, s)
      end
  | EmptyString => (acc, len, s)
  end.

Definition scan_sign (s : string) : bool * string :=
  match s with
  | String "-" s' => (true, s')
  | _ => (false, s)
  end.

Definition pow10 (e : Z) : Q :=
  match e with
  | Z0 => 1
  | Zpos p => inject_Z (10 ^ Zpos p)
  | Zneg p => 1 # (10 ^ p)
  end.

(** [-? digits (. digits)? ([eE] [+-]? digits)?]: the number read, whether
    it is written as an integer, and the rest. *)
Definition scan_number (s : string) : option (Q * bool * string) :=
  let '(neg, s1) := scan_sign s in
  let '(ip, n1, s2) := scan_digits s1 0 0 in
  if (n1 =? 0)%nat then None else
  let '(mant, is_int, s3) :=
    match s2 with
    | String "." s2' =>
        let '(fp, n2, s3) := scan_digits s2' 0 0 in
        (Qred ((ip * 10 ^ Z.of_nat n2 + fp) # Pos.pow 10 (Pos.of_nat n2)), false, s3)
    | _ => (inject_Z ip, true, s2)
    end in
  let '(val, is_int', s4) :=
    match s3 with
    | String c s3' =>
        if Ascii.eqb c "e" || Ascii.eqb c "E" then
          let '(eneg, s3'') :=
            match s3' with
            | String "+" r => (false, r)
            | String "-" r => (true, r)
            | _ => (false, s3')
            end in
          let '(ev, n3, s4) := scan_digits s3'' 0 0 in
          if (n3 =? 0)%nat then (mant, is_int, s3)
          else (Qred (mant * pow10 (if eneg then - ev else ev)), false, s4)
        else (mant, is_int, s3)
    | EmptyString => (mant, is_int, s3)
    end in
  Some (if neg then Qred (- val) else val, is_int', s4).

Definition unescape (c : ascii) : option ascii :=
  if Ascii.eqb c dquote then Some dquote
  else if Ascii.eqb c backslash then Some backslash
  else if Ascii.eqb c "/" then Some "/"%char
  else if Ascii.eqb c "b" then Some "008"%char
  else if Ascii.eqb c "f" then Some "012"%char
  else if Ascii.eqb c "n" then Some "010"%char
  else if Ascii.eqb c "r" then Some "013"%char
  else if Ascii.eqb c "t" then Some "009"%char
  else None.

(** The text after an opening quote: the string read and the rest. *)
Fixpoint scan_string (s : string) : option (string * string) :=
  match s with
  | EmptyString => None
  | String c s' =>
      if Ascii.eqb c dquote then Some (EmptyString, s')
      else if Ascii.eqb c backslash then
        match s' with
        | String e s'' =>
            match unescape e, scan_string s'' with
            | Some c', Some (body, rest) => Some (String c' body, rest)
            | _, _ => None
            end
        | EmptyString => None
        end
      else if (nat_of_ascii c <? 32)%nat then None
      else
        match scan_string s' with
        | Some (body, rest) => Some (String c body, rest)
        | None => None
        end
  end.

Definition starts_with (p s : string) : option string :=
  if String.prefix p s then Some (String.substring (String.length p) (String.length s - String.length p) s)
  else None.

Fixpoint parse_value (fuel : nat) (s : string) : option (json * string) :=
  match fuel with
  | O => None
  | S f =>
      match skip_ws s with
      | EmptyString => None
      | String c rest as s0 =>
          if Ascii.eqb c "[" then
            match skip_ws rest with
            | String "]" r => Some (JArr [], r)
            | _ =>
                match parse_items f rest with
                | Some (vs, r) => Some (JArr vs, r)
                | None => None
                end
            end
          else if Ascii.eqb c "{" then
            match skip_ws rest with
            | String "}" r => Some (JObj [], r)
            | _ =>
                match parse_members f rest with
                | Some (ms, r) => Some (JObj ms, r)
                | None => None
                end
            end
          else if Ascii.eqb c dquote then
            match scan_string rest with
            | Some (str, r) => Some (JStr str, r)
            | None => None
            end
          else
            match starts_with "null" s0, starts_with "true" s0, starts_with "false" s0 with
            | Some r, _, _ => Some (JNull, r)
            | _, Some r, _ => Some (JBool true, r)
            | _, _, Some r => Some (JBool false, r)
            | _, _, _ =>
                match scan_number s0 with
                | Some (q, true, r) => Some (JInt (Qfloor q), r)
                | Some (q, false, r) => Some (JFloat q, r)
                | None => None
                end
            end
      end
  end
with parse_items (fuel : nat) (s : string) : option (list json * string) :=
  match fuel with
  | O => None
  | S f =>
      match parse_value f s with
      | Some (v, r) =>
          match skip_ws r with
          | String "," r' =>
              match parse_items f r' with
              | Some (vs, r'') => Some (v :: vs, r'')
              | None => None
              end
          | String "]" r' => Some ([v], r')
          | _ => None
          end
      | None => None
      end
  end
with parse_members (fuel : nat) (s : string) : option (list (string * json) * string) :=
  match fuel with
  | O => None
  | S f =>
      match skip_ws s with
      | String c r0 =>
          if Ascii.eqb c dquote then
            match scan_string r0 with
            | Some (k, r1) =>
                match skip_ws r1 with
                | String ":" r2 =>
                    match parse_value f r2 with
                    | Some (v, r3) =>
                        match skip_ws r3 with
                        | String "," r4 =>
                            match parse_members f r4 with
                            | Some (ms, r5) => Some ((k, v) :: ms, r5)
                            | None => None
                            end
                        | String "}" r4 => Some ([(k, v)], r4)
                        | _ => None
                        end
                    | None => None
                    end
                | _ => None
                end
            | None => None
            end
          else None
      | EmptyString => None
      end
  end.

Definition ref_json_loads (s : string) : option json :=
  match parse_value (2 * String.length s + 2) s with
  | Some (v, rest) =>
      match skip_ws rest with
      | EmptyString => Some v
      | _ => None
      end
  | None => None
  end.

Definition ref_float_of_str (s : string) : option Q :=
  let s1 := skip_ws s in
  let s2 := match s1 with String "+" r => r | _ => s1 end in
  match scan_number s2 with
  | Some (q, _, rest) =>
      match skip_ws rest with
      | EmptyString => Some q
      | _ => None
      end
  | None => None
  end.

Definition ref_int_of_str (s : string) : option Z :=
  let s1 := skip_ws s in
  let s2 := match s1 with String "+" r => r | _ => s1 end in
  let '(neg, s3) := scan_sign s2 in
  let '(v, n, rest) := scan_digits s3 0 0 in
  if (n =? 0)%nat then None
  else
    match skip_ws rest with
    | EmptyString => Some (if neg then - v else v)%Z
    | _ => None
    end.

Definition lib : PyLib := {|
  json_loads := ref_json_loads;
  float_of_str := ref_float_of_str;
  int_of_str := ref_int_of_str
|}.

End RefLib.


(* ===================================================================== *)
(** ** Runs of the service                                                *)
(* ===================================================================== *)

Section Runs.
Context {L : PyLib}.

(** Stores the service can be in, with the last reading of the clock.
    The clock does not run backwards. *)
Inductive reachable : Q -> mem_jobs -> Prop :=
| reach_init (t : Q) : reachable t ∅
| reach_process (t : Q) (jobs : mem_jobs)
    (file : option UploadFile) (source_url sources : option string)
    (clip_length aspect_ratio auto_highlights uuid4_hex : string) (now : Q) :
    reachable t jobs -> (t <= now)%Q ->
    reachable now
      (process file source_url sources clip_length aspect_ratio auto_highlights
         uuid4_hex now jobs).2
| reach_status (t : Q) (jobs : mem_jobs) (job_id : string) (t0 now : Q) :
    reachable t jobs -> (t <= t0)%Q -> (t0 <= now)%Q ->
    reachable now (status job_id t0 now jobs).2.

(** Polling one job at the clock readings [reads], in this order. *)
Fixpoint poll_seq (job_id : string) (reads : list (Q * Q)) : M (list (gmap string pyval)) :=
  match reads with
  | [] => mret []
  | (t0, now) :: reads' =>
      r ← status job_id t0 now;
      rs ← poll_seq job_id reads';
      mret (r :: rs)
  end.

(** A job that a poll has completed: its clips are the two examples made
    from its own options, and the deadline has passed. *)
Record job_done (t ts : Q) (doc : gmap string pyval) (cl : list pyval) : Prop := {
  done_clips : doc !! "clips" = Some (VList cl);
  done_example : example_clips doc = Ok cl;
  done_status : doc !! "status" = Some (VStr "completed");
  done_progress : doc !! "progress" = Some (VInt 100);
  done_message : doc !! "message" = Some (VStr "All done! Your clips are ready.");
  done_time : (ts + PROCESS_SECONDS <= t)%Q
}.

(** What every stored job looks like. *)
Record job_wf (t : Q) (doc : gmap string pyval) : Prop := {
  wf_created : exists ts : Q,
    doc !! "created_ts" = Some (VFloat ts) /\ (ts <= t)%Q /\
    (doc !! "clips" = Some VNone \/ exists cl, job_done t ts doc cl);
  wf_status : exists s, doc !! "status" = Some (VStr s);
  wf_progress : exists n, doc !! "progress" = Some (VInt n);
  wf_message : exists m, doc !! "message" = Some (VStr m);
  wf_clip_length : exists s, doc !! "clip_length" = Some (VStr s);
  wf_aspect_ratio : exists s, doc !! "aspect_ratio" = Some (VStr s)
}.

Definition store_wf (t : Q) (jobs : mem_jobs) : Prop :=
  forall jid doc, jobs !! jid = Some doc -> job_wf t doc.

(** The record a successful request leaves in the store. *)
Definition stored_doc (file : option UploadFile) (source_url sources : option string)
    (clip_length aspect_ratio auto_highlights uuid4_hex : string) (now : Q)
    : gmap string pyval :=
  {["created_ts" := VFloat now]} ∪
  <["_id" := VStr uuid4_hex]>
    (job_doc file (link_list source_url sources) clip_length aspect_ratio auto_highlights).

(** The time a job was created at, as its record has it. *)
Definition created_at (doc : gmap string pyval) : Q :=
  match doc !! "created_ts" with
  | Some (VFloat ts) => ts
  | _ => 0
  end.

(** The integer a response reports as progress. *)
Definition progress_of (resp : gmap string pyval) : option Z :=
  match resp !! "progress" with
  | Some (VInt n) => Some n
  | _ => None
  end.

(** The two example clips, for a first duration and an aspect ratio. *)
Definition first_clip (dur : Q) (ar : string) : gmap string pyval :=
  Clip.model_dump {|
    Clip.caption := Some "Top moment with highest energy";
    Clip.duration := Some dur;
    Clip.aspect_ratio := Some ar;
    Clip.thumbnail_url := Some "https://images.unsplash.com/photo-1504384308090-c894fdcc538d?q=80&w=1280&auto=format&fit=crop";
    Clip.download_url := Some "https://file-examples.com/storage/fe0e7a8f6e2a6a5ef2d3b5f/2017/04/file_example_MP4_480_1_5MG.mp4" |}.

Definition second_clip (ar : string) : gmap string pyval :=
  Clip.model_dump {|
    Clip.caption := Some "Funny reaction with clean transcript";
    Clip.duration := Some 20%Q;
    Clip.aspect_ratio := Some ar;
    Clip.thumbnail_url := Some "https://images.unsplash.com/photo-1524253482453-3fed8d2fe12b?q=80&w=1280&auto=format&fit=crop";
    Clip.download_url := Some "https://file-examples.com/storage/fe0e7a8f6e2a6a5ef2d3b5f/2017/04/file_example_MP4_1280_10MG.mp4" |}.

(** All responses report a progress from [lo] up to, not including, [hi]. *)
Definition progress_in (lo hi : Z) (resps : list (gmap string pyval)) : Prop :=
  Forall (fun r => exists p, progress_of r = Some p /\ (lo <= p < hi)%Z) resps.

(** The second response reports at least the progress of the first. *)
Definition progress_le (r1 r2 : gmap string pyval) : Prop :=
  exists p1 p2, progress_of r1 = Some p1 /\ progress_of r2 = Some p2 /\ (p1 <= p2)%Z.

(** What a poll at the clock reading [r] answers before the deadline, for
    a job created at [ts]. *)
Definition answer (ts : Q) (r : Q * Q) : gmap string pyval :=
  processing_response (progress_pct (elapsed_time ts r.2)).
End Runs.

(* ===================================================================== *)
(** ** The specification's formulas                                       *)
(* ===================================================================== *)

Module Spec.
(** [floor(min(95, elapsed/total * 90) + 10)] with [total = 10] *)
Definition progress (elapsed : Q) : Z :=
  Qfloor (Qmin 95 (elapsed / 10 * 90) + 10).

(** The strings of [sources] when it is a JSON array; nothing when there
    is no value, or it is not JSON, or not an array. *)
Definition parsed_sources {L : PyLib} (sources : option string) : list string :=
  match sources with
  | Some s =>
      if decide (s = "") then []
      else match json_loads s with
           | Some (JArr xs) =>
               flat_map (fun x => match x with JStr u => [u] | _ => [] end) xs
           | _ => []
           end
  | None => []
  end.

(** The parsed list with [source_url] at its end unless it is already
    there. *)
Definition link_list {L : PyLib} (source_url sources : option string) : list string :=
  let parsed := parsed_sources sources in
  match source_url with
  | Some u => if decide (u = "" \/ u ∈ parsed) then parsed else parsed ++ [u]
  | None => parsed
  end.

(** A request comes with a source URL. *)
Definition supplied_url (source_url : option string) : Prop :=
  exists u, source_url = Some u /\ u <> "".

(** A request comes with [sources] that parse to a list with a string. *)
Definition supplied_links {L : PyLib} (sources : option string) : Prop :=
  parsed_sources sources <> [].
End Spec.

(* ===================================================================== *)
(** ** Proof steps that recur                                             *)
(* ===================================================================== *)

(** Reduction of the monad's plumbing, leaving dictionary operations alone. *)
Ltac run_M :=
  cbv [mbind M_bind mret M_ret lift raise get_job update_job negb
       default from_option id].

(** Lookup of a key in [updates ∪ doc], the result of [doc.update(updates)],
    when the keys of [updates] are known. *)
Ltac upd_lookup :=
  repeat first
    [ rewrite (lookup_union_r (M := gmap string)) by reflexivity
    | erewrite (lookup_union_Some_l (M := gmap string)) by reflexivity ].

(* ===================================================================== *)
(** ** Sample requests, run at the reference instance                     *)
(* ===================================================================== *)

Module Sample.

Definition job_a : string := "5f0c2a9e7b3d4c1e8a6f0b2d4c6e8a01".

(** The text [["https://a","https://b"]] *)
Definition two_links : string :=
  "[" ++ String RefLib.dquote "https://a" ++ String RefLib.dquote ","
      ++ String RefLib.dquote "https://b" ++ String RefLib.dquote "]".

(** [POST /process] with one link and the default options, at time 1000. *)
Definition created : mem_jobs :=
  (process (L := RefLib.lib) None (Some "https://a") None "auto" "auto" "true"
     job_a 1000 ∅).2.

(** The same request with [clip_length=45]. *)
Definition created_45 : mem_jobs :=
  (process (L := RefLib.lib) None (Some "https://a") None "45" "9:16" "true"
     job_a 1000 ∅).2.

(** The same request with [clip_length=short]. *)
Definition created_short : mem_jobs :=
  (process (L := RefLib.lib) None (Some "https://a") None "short" "auto" "true"
     job_a 1000 ∅).2.

(** [created], polled once at time 1012. *)
Definition finished : mem_jobs :=
  (status (L := RefLib.lib) job_a 1012 1012 created).2.

End Sample.

(* ===================================================================== *)
(** ** Notions for the life of a job                                      *)
(* ===================================================================== *)

Section Life.
Context {L : PyLib}.

(** The keys of a record that [status] writes (lines 142-146, 172-177). *)
Definition status_keys : list string := ["status"; "progress"; "message"; "clips"].

(** The three stages of a stored job: as created, polled before the
    deadline, and completed. *)
Definition job_life (doc : gmap string pyval) : Prop :=
  (doc !! "status" = Some (VStr "queued") /\
   doc !! "progress" = Some (VInt 10) /\
   doc !! "clips" = Some VNone) \/
  (doc !! "status" = Some (VStr "processing") /\
   (exists p, doc !! "progress" = Some (VInt p) /\ (10 <= p < 100)%Z) /\
   doc !! "clips" = Some VNone) \/
  (doc !! "status" = Some (VStr "completed") /\
   doc !! "progress" = Some (VInt 100) /\
   exists c1 c2, doc !! "clips" = Some (VList [VDict c1; VDict c2])).

(** [Clip] built from the entries of a dict as keyword arguments: a key
    that is missing takes the default [None] of its field, keys that are no
    fields are ignored. *)
Definition Clip_model_validate (d : gmap string pyval) : result Clip.t :=
  Clip.make (default VNone (d !! "caption")) (default VNone (d !! "duration"))
    (default VNone (d !! "aspect_ratio")) (default VNone (d !! "thumbnail_url"))
    (default VNone (d !! "download_url")).

(** The value of the flag [auto_highlights] of line 108. *)
Definition auto_h (auto_highlights : string) : bool :=
  str_in (str_lower auto_highlights) ["true"; "1"; "yes"; "on"].

(** The keys of a stored record: the fields of [Job], the identifier and
    the creation time. *)
Definition record_keys : gset string :=
  list_to_set ["status"; "progress"; "message"; "source_type"; "original_filename";
               "sources"; "clip_length"; "aspect_ratio"; "auto_highlights"; "clips";
               "error"; "_id"; "created_ts"].

(** The source of a job is a file, and then no links are kept, or it is a
    list of links with at least one link, and then there is no file name. *)
Definition job_source_ok (doc : gmap string pyval) : Prop :=
  (doc !! "source_type" = Some (VStr "file") /\ doc !! "sources" = Some VNone) \/
  (doc !! "source_type" = Some (VStr "links") /\
   doc !! "original_filename" = Some VNone /\
   exists l : list string, l <> [] /\ doc !! "sources" = Some (VList (VStr <$> l))).

End Life.

(* ===================================================================== *)
(** ** Rational arithmetic of the progress formula                        *)
(* ===================================================================== *)

Lemma Qltb_lt (a b : Q) : Qltb a b = true <-> (a < b)%Q.
Proof.
  unfold Qltb. rewrite negb_true_iff, <- not_true_iff_false, Qle_bool_iff.
  split; [apply Qnot_le_lt | apply Qlt_not_le].
Qed.

Lemma Qltb_ge (a b : Q) : Qltb a b = false <-> (b <= a)%Q.
Proof.
  unfold Qltb. rewrite negb_false_iff. apply Qle_bool_iff.
Qed.

Lemma elapsed_time_nonneg (ts now : Q) : (0 <= elapsed_time ts now)%Q.
Proof.
  unfold elapsed_time, py_max.
  destruct (Qltb 0 (now - ts)) eqn:E.
  - apply Qltb_lt in E. lra.
  - lra.
Qed.

Lemma elapsed_time_ge (ts now d : Q) :
  (0 < d)%Q -> (d <= elapsed_time ts now)%Q <-> (ts + d <= now)%Q.
Proof.
  intros Hd. unfold elapsed_time, py_max.
  destruct (Qltb 0 (now - ts)) eqn:E.
  - apply Qltb_lt in E. split; lra.
  - apply Qltb_ge in E. split; lra.
Qed.

Lemma elapsed_time_mono (ts now1 now2 : Q) :
  (now1 <= now2)%Q -> (elapsed_time ts now1 <= elapsed_time ts now2)%Q.
Proof.
  intros Hle. unfold elapsed_time, py_max.
  destruct (Qltb 0 (now1 - ts)) eqn:E1; destruct (Qltb 0 (now2 - ts)) eqn:E2;
    rewrite ?Qltb_lt, ?Qltb_ge in *; lra.
Qed.

Lemma scaled_range (e : Q) :
  (0 <= e)%Q -> (e < 10)%Q -> (0 <= e / PROCESS_SECONDS * 90)%Q /\ (e / PROCESS_SECONDS * 90 < 90)%Q.
Proof.
  intros H0 H10. unfold PROCESS_SECONDS.
  assert (E : (e / 10 * 90 == e * 9)%Q) by (field).
  rewrite E. split; lra.
Qed.

Lemma py_min_Qmin (a x : Q) : (py_min a x == Qmin a x)%Q.
Proof.
  unfold py_min. destruct (Qltb x a) eqn:E.
  - apply Qltb_lt in E. rewrite Q.min_r; [reflexivity | lra].
  - apply Qltb_ge in E. rewrite Q.min_l; [reflexivity | lra].
Qed.

Lemma Qtrunc_nonneg (y : Q) : (0 <= y)%Q -> Qtrunc y = Qfloor y.
Proof.
  intros Hy. unfold Qtrunc. destruct (Qltb y 0) eqn:E; [| reflexivity].
  apply Qltb_lt in E. lra.
Qed.

Lemma Qfloor_range (y : Q) (lo hi : Z) :
  (inject_Z lo <= y)%Q -> (y < inject_Z hi)%Q -> (lo <= Qfloor y < hi)%Z.
Proof.
  intros Hlo Hhi. split.
  - rewrite <- (Qfloor_Z lo). now apply Qfloor_resp_le.
  - rewrite Zlt_Qlt. eapply Qle_lt_trans; [apply Qfloor_le | exact Hhi].
Qed.


Lemma progress_pct_range (e : Q) :
  (0 <= e)%Q -> (e < 10)%Q -> (10 <= progress_pct e < 100)%Z.
Proof.
  intros H0 H10. unfold progress_pct.
  destruct (scaled_range e H0 H10) as [Hlo Hhi].
  pose proof (py_min_Qmin 95 (e / PROCESS_SECONDS * 90)) as Hm.
  rewrite Q.min_r in Hm by lra.
  rewrite Qtrunc_nonneg by (rewrite Hm; lra).
  apply Qfloor_range; rewrite Hm;
    change (inject_Z 10) with 10%Q; change (inject_Z 100) with 100%Q; lra.
Qed.

Lemma progress_pct_mono (e1 e2 : Q) :
  (0 <= e1)%Q -> (e1 <= e2)%Q -> (e2 < 10)%Q -> (progress_pct e1 <= progress_pct e2)%Z.
Proof.
  intros H0 H12 H10. unfold progress_pct.
  destruct (scaled_range e1) as [Hlo1 Hhi1]; [lra | lra |].
  destruct (scaled_range e2) as [Hlo2 Hhi2]; [lra | lra |].
  pose proof (py_min_Qmin 95 (e1 / PROCESS_SECONDS * 90)) as Hm1.
  pose proof (py_min_Qmin 95 (e2 / PROCESS_SECONDS * 90)) as Hm2.
  rewrite Q.min_r in Hm1 by lra. rewrite Q.min_r in Hm2 by lra.
  rewrite !Qtrunc_nonneg by (rewrite ?Hm1, ?Hm2; lra).
  apply Qfloor_resp_le. rewrite Hm1, Hm2.
  unfold PROCESS_SECONDS.
  assert (E1 : (e1 / 10 * 90 == e1 * 9)%Q) by field.
  assert (E2 : (e2 / 10 * 90 == e2 * 9)%Q) by field.
  rewrite E1, E2. lra.
Qed.

(** In binary64 arithmetic too the progress starts at 10, is 95 after 9.5
    seconds and is 99 at the last float below 10. *)
Example binary64_progress_at_ends :
  Binary64.progress_pct 0%float = 10%Z /\
  Binary64.progress_pct 9.5%float = 95%Z /\
  (PrimFloat.ltb (PrimFloat.next_down 10) 10 = true /\
   Binary64.progress_pct (PrimFloat.next_down 10) = 99%Z).
Proof. repeat split; vm_compute; reflexivity. Qed.

Example rational_progress_at_ends :
  progress_pct 0 = 10%Z /\ progress_pct 9.5 = 95%Z /\ progress_pct (9999 # 1000) = 99%Z.
Proof. repeat split; vm_compute; reflexivity. Qed.

(* ===================================================================== *)
(** ** The branches of [status]                                           *)
(* ===================================================================== *)

Lemma dict_truthy_lookup (doc : gmap string pyval) (k : string) (v : pyval) :
  doc !! k = Some v -> truthy (VDict doc) = true.
Proof.
  intros Hk. unfold truthy. apply negb_true_iff, Nat.eqb_neq.
  intros Hsz. apply map_size_empty_iff in Hsz. subst doc.
  rewrite lookup_empty in Hk. discriminate.
Qed.

Section StatusBranches.
Context {L : PyLib}.
Variables (jobs : mem_jobs) (job_id : string) (doc : gmap string pyval).
Variables (ts t0 now : Q).
Hypothesis Hjob : jobs !! job_id = Some doc.
Hypothesis Hts : doc !! "created_ts" = Some (VFloat ts).

Lemma status_unknown (jobs0 : mem_jobs) (jid : string) :
  jobs0 !! jid = None ->
  status jid t0 now jobs0 = (Raise (HTTPException 404 "Job not found"), jobs0).
Proof.
  intros Hnone. unfold status. run_M. rewrite Hnone. reflexivity.
Qed.

Lemma status_before :
  (elapsed_time ts now < PROCESS_SECONDS)%Q ->
  status job_id t0 now jobs =
    (Ok (processing_response (progress_pct (elapsed_time ts now))),
     <[job_id := processing_update (progress_pct (elapsed_time ts now)) ∪ doc]> jobs).
Proof.
  intros He. apply Qltb_lt in He.
  unfold status. run_M. rewrite Hjob, (dict_truthy_lookup _ _ _ Hts), Hts.
  cbv [py_float]. rewrite He, Hjob. reflexivity.
Qed.

Lemma status_completing (cl : list pyval) :
  (PROCESS_SECONDS <= elapsed_time ts now)%Q ->
  truthy (default VNone (doc !! "clips")) = false ->
  example_clips doc = Ok cl ->
  status job_id t0 now jobs =
    (completed_response (completed_update cl ∪ doc),
     <[job_id := completed_update cl ∪ doc]> jobs).
Proof.
  intros He Hno Hcl. apply Qltb_ge in He.
  unfold status. run_M.
  rewrite Hjob, (dict_truthy_lookup _ _ _ Hts), Hts.
  cbv [py_float]. rewrite He.
  change (match doc !! "clips" with Some x => x | None => VNone end)
    with (default VNone (doc !! "clips")).
  rewrite Hno, Hcl, Hjob, lookup_insert_eq.
  destruct (completed_response (completed_update cl ∪ doc)); reflexivity.
Qed.

Lemma status_completing_raises (e : error) :
  (PROCESS_SECONDS <= elapsed_time ts now)%Q ->
  truthy (default VNone (doc !! "clips")) = false ->
  example_clips doc = Raise e ->
  status job_id t0 now jobs = (Raise e, jobs).
Proof.
  intros He Hno Hcl. apply Qltb_ge in He.
  unfold status. run_M.
  rewrite Hjob, (dict_truthy_lookup _ _ _ Hts), Hts.
  cbv [py_float]. rewrite He.
  change (match doc !! "clips" with Some x => x | None => VNone end)
    with (default VNone (doc !! "clips")).
  rewrite Hno, Hcl. reflexivity.
Qed.

Lemma status_completed :
  (PROCESS_SECONDS <= elapsed_time ts now)%Q ->
  truthy (default VNone (doc !! "clips")) = true ->
  status job_id t0 now jobs = (completed_response doc, jobs).
Proof.
  intros He Hyes. apply Qltb_ge in He.
  unfold status. run_M.
  rewrite Hjob, (dict_truthy_lookup _ _ _ Hts), Hts.
  cbv [py_float]. rewrite He.
  change (match doc !! "clips" with Some x => x | None => VNone end)
    with (default VNone (doc !! "clips")).
  rewrite Hyes.
  destruct (completed_response doc); reflexivity.
Qed.
End StatusBranches.

(* ===================================================================== *)
(** ** The branches of [process]                                          *)
(* ===================================================================== *)

Section ProcessBranches.
Context {L : PyLib}.
Variables (jobs : mem_jobs) (file : option UploadFile).
Variables (source_url sources : option string).
Variables (clip_length aspect_ratio auto_highlights uuid4_hex : string) (now : Q).

Lemma process_rejects :
  file = None -> link_list source_url sources = [] ->
  process file source_url sources clip_length aspect_ratio auto_highlights
    uuid4_hex now jobs
  = (Raise (HTTPException 400 "Provide a file or at least one link"), jobs).
Proof.
  intros -> Hll. unfold process. rewrite Hll. reflexivity.
Qed.

Lemma process_accepts :
  is_some file = true \/ link_list source_url sources <> [] ->
  process file source_url sources clip_length aspect_ratio auto_highlights
    uuid4_hex now jobs
  = (Ok {["job_id" := VStr uuid4_hex]},
     <[uuid4_hex := stored_doc file source_url sources clip_length aspect_ratio
                      auto_highlights uuid4_hex now]> jobs).
Proof.
  intros Hin. unfold process.
  assert (Hguard : negb (is_some file)
                   && (length (link_list source_url sources) =? 0)%nat = false).
  { destruct Hin as [-> | Hne]; [reflexivity |].
    destruct (link_list source_url sources); [congruence |].
    apply andb_false_r. }
  rewrite Hguard. unfold save_job. run_M.
  rewrite lookup_insert_eq, insert_insert_eq. reflexivity.
Qed.

Lemma stored_doc_fields :
  let doc := stored_doc file source_url sources clip_length aspect_ratio
               auto_highlights uuid4_hex now in
  doc !! "created_ts" = Some (VFloat now) /\
  doc !! "_id" = Some (VStr uuid4_hex) /\
  doc !! "status" = Some (VStr "queued") /\
  doc !! "progress" = Some (VInt 10) /\
  doc !! "message" = Some (VStr "Queued for processing") /\
  doc !! "clip_length" = Some (VStr clip_length) /\
  doc !! "aspect_ratio" = Some (VStr aspect_ratio) /\
  doc !! "clips" = Some VNone.
Proof.
  unfold stored_doc, job_doc, Job.model_dump. repeat split; reflexivity.
Qed.
End ProcessBranches.

(* ===================================================================== *)
(** ** The invariant of the store                                         *)
(* ===================================================================== *)

Section Invariant.
Context {L : PyLib}.

Lemma example_clips_ext (d1 d2 : gmap string pyval) :
  d1 !! "aspect_ratio" = d2 !! "aspect_ratio" ->
  d1 !! "clip_length" = d2 !! "clip_length" ->
  example_clips d1 = example_clips d2.
Proof.
  intros Har Hcl. unfold example_clips. rewrite Har, Hcl. reflexivity.
Qed.

Lemma example_clips_two (doc : gmap string pyval) (cl : list pyval) :
  example_clips doc = Ok cl -> exists c1 c2, cl = [VDict c1; VDict c2].
Proof.
  unfold example_clips. intros Hcl.
  destruct (Clip.make _ _ _ _ _) as [c1 | ]; [| discriminate].
  destruct (Clip.make _ _ _ _ _) as [c2 | ]; [| discriminate].
  injection Hcl as <-. eauto.
Qed.

Lemma job_wf_later (t t' : Q) (doc : gmap string pyval) :
  (t <= t')%Q -> job_wf t doc -> job_wf t' doc.
Proof.
  intros Hle [(ts & Hts & Hle' & Hclips) Hs Hp Hm Hc Ha].
  constructor; try assumption.
  exists ts. split; [assumption |]. split; [lra |].
  destruct Hclips as [Hnone | (cl & [H1 H2 H3 H4 H5 H6])]; [now left | right].
  exists cl. constructor; try assumption. lra.
Qed.

Lemma store_wf_later (t t' : Q) (jobs : mem_jobs) :
  (t <= t')%Q -> store_wf t jobs -> store_wf t' jobs.
Proof.
  intros Hle Hwf jid doc Hdoc. eapply job_wf_later; eauto.
Qed.

Lemma job_wf_stored (file : option UploadFile) (su so : option string)
    (cl ar ah jid : string) (now : Q) :
  job_wf now (stored_doc file su so cl ar ah jid now).
Proof.
  destruct (stored_doc_fields file su so cl ar ah jid now)
    as (Hts & _ & Hs & Hp & Hm & Hcl & Har & Hclips).
  constructor; eauto.
  exists now. split; [assumption |]. split; [lra | now left].
Qed.

Lemma job_wf_processing (t now : Q) (doc : gmap string pyval) (ts : Q) (pct : Z) :
  job_wf t doc -> (t <= now)%Q ->
  doc !! "created_ts" = Some (VFloat ts) ->
  (elapsed_time ts now < PROCESS_SECONDS)%Q ->
  job_wf now (processing_update pct ∪ doc).
Proof.
  intros [(ts' & Hts' & Hle & Hclips) Hs Hp Hm Hc Ha] Hnow Hts He.
  rewrite Hts in Hts'. injection Hts' as <-.
  constructor; upd_lookup; eauto.
  exists ts. split; [assumption |]. split; [lra |].
  destruct Hclips as [Hnone | (cl & [_ _ _ _ _ Hdone])]; [now left |].
  exfalso. assert (Hlate : (ts + PROCESS_SECONDS <= now)%Q) by lra.
  apply (elapsed_time_ge ts now PROCESS_SECONDS) in Hlate; [lra | reflexivity].
Qed.

Lemma job_wf_completing (t now : Q) (doc : gmap string pyval) (ts : Q)
    (cl : list pyval) :
  job_wf t doc -> (t <= now)%Q ->
  doc !! "created_ts" = Some (VFloat ts) ->
  (PROCESS_SECONDS <= elapsed_time ts now)%Q ->
  example_clips doc = Ok cl ->
  job_wf now (completed_update cl ∪ doc).
Proof.
  intros [(ts' & Hts' & Hle & Hclips) Hs Hp Hm Hc Ha] Hnow Hts He Hcl.
  rewrite Hts in Hts'. injection Hts' as <-.
  constructor; upd_lookup; eauto.
  exists ts. split; [assumption |]. split; [lra | right].
  exists cl. constructor; upd_lookup; try reflexivity.
  - rewrite <- Hcl. apply example_clips_ext; now upd_lookup.
  - apply (elapsed_time_ge ts now PROCESS_SECONDS) in He; [lra | reflexivity].
Qed.

Lemma job_wf_clips_truthy (t : Q) (doc : gmap string pyval) :
  job_wf t doc ->
  truthy (default VNone (doc !! "clips")) = true ->
  exists ts cl, doc !! "created_ts" = Some (VFloat ts) /\ job_done t ts doc cl.
Proof.
  intros [(ts & Hts & Hle & Hclips) _ _ _ _ _] Htruthy.
  destruct Hclips as [Hnone | (cl & Hdone)].
  - rewrite Hnone in Htruthy. discriminate.
  - exists ts, cl. split; assumption.
Qed.

Lemma job_wf_clips_falsy (t : Q) (doc : gmap string pyval) :
  job_wf t doc ->
  truthy (default VNone (doc !! "clips")) = false ->
  doc !! "clips" = Some VNone.
Proof.
  intros [(ts & Hts & Hle & Hclips) _ _ _ _ _] Hfalsy.
  destruct Hclips as [Hnone | (cl & [H1 H2 _ _ _ _])]; [assumption |].
  apply example_clips_two in H2 as (c1 & c2 & ->).
  rewrite H1 in Hfalsy. discriminate.
Qed.

Lemma status_preserves (t : Q) (jobs : mem_jobs) (job_id : string) (t0 now : Q) :
  store_wf t jobs -> (t <= now)%Q ->
  store_wf now (status job_id t0 now jobs).2.
Proof.
  intros Hwf Hnow.
  destruct (jobs !! job_id) as [doc |] eqn:Hjob.
  2:{ rewrite status_unknown by assumption. now apply (store_wf_later t). }
  pose proof (Hwf _ _ Hjob) as Hdoc.
  destruct (wf_created _ _ Hdoc) as (ts & Hts & _ & _).
  destruct (Qlt_le_dec (elapsed_time ts now) PROCESS_SECONDS) as [He | He].
  - rewrite (status_before jobs job_id doc ts) by assumption.
    intros jid d. cbn [snd]. rewrite lookup_insert.
    case_decide as Hj.
    + intros [= <-]. eapply job_wf_processing; eauto.
    + intros Hd. eapply job_wf_later; eauto.
  - destruct (truthy (default VNone (doc !! "clips"))) eqn:Hclips.
    + rewrite (status_completed jobs job_id doc ts) by assumption.
      now apply (store_wf_later t).
    + destruct (example_clips doc) as [cl | e] eqn:Hcl.
      * rewrite (status_completing jobs job_id doc ts t0 now Hjob Hts cl) by assumption.
        intros jid d. cbn [snd]. rewrite lookup_insert.
        case_decide as Hj.
        -- intros [= <-]. eapply job_wf_completing; eauto.
        -- intros Hd. eapply job_wf_later; eauto.
      * rewrite (status_completing_raises jobs job_id doc ts t0 now Hjob Hts e)
          by assumption.
        now apply (store_wf_later t).
Qed.

Lemma process_preserves (t : Q) (jobs : mem_jobs) (file : option UploadFile)
    (su so : option string) (cl ar ah jid : string) (now : Q) :
  store_wf t jobs -> (t <= now)%Q ->
  store_wf now (process file su so cl ar ah jid now jobs).2.
Proof.
  intros Hwf Hnow.
  destruct (is_some file) eqn:Hfile; [| destruct (link_list su so) eqn:Hll].
  - rewrite process_accepts by now left.
    intros j d. cbn [snd]. rewrite lookup_insert. case_decide.
    + intros [= <-]. apply job_wf_stored.
    + intros Hd. eapply job_wf_later; eauto.
  - destruct file; [discriminate |].
    rewrite process_rejects by auto. now apply (store_wf_later t).
  - rewrite process_accepts by (right; congruence).
    intros j d. cbn [snd]. rewrite lookup_insert. case_decide.
    + intros [= <-]. apply job_wf_stored.
    + intros Hd. eapply job_wf_later; eauto.
Qed.

(** Every job of a reachable store is well formed. *)
Lemma reachable_wf (t : Q) (jobs : mem_jobs) :
  reachable t jobs -> store_wf t jobs.
Proof.
  induction 1 as [t | t jobs file su so cl ar ah jid now _ IH Hle
                    | t jobs jid t0 now _ IH Hle0 Hle1].
  - intros jid doc Hdoc. rewrite lookup_empty in Hdoc. discriminate.
  - now apply (process_preserves t).
  - apply (status_preserves t); [assumption | lra].
Qed.
End Invariant.

(* ===================================================================== *)
(** ** Facts about the sample runs                                        *)
(* ===================================================================== *)

Lemma sample_created_reachable : reachable (L := RefLib.lib) 1000 Sample.created.
Proof.
  apply (reach_process 0 ∅); [apply reach_init | discriminate].
Defined.

Lemma sample_created_45_reachable : reachable (L := RefLib.lib) 1000 Sample.created_45.
Proof.
  apply (reach_process 0 ∅); [apply reach_init | discriminate].
Defined.

Lemma sample_finished_reachable : reachable (L := RefLib.lib) 1012 Sample.finished.
Proof.
  apply (reach_status 1000 Sample.created);
    [apply sample_created_reachable | discriminate | discriminate].
Defined.

Lemma sample_created_lookup :
  Sample.created !! Sample.job_a
  = Some (stored_doc (L := RefLib.lib) None (Some "https://a") None "auto" "auto" "true"
            Sample.job_a 1000).
Proof.
  unfold Sample.created. rewrite process_accepts by (right; vm_compute; discriminate).
  apply lookup_insert_eq.
Qed.

(* ===================================================================== *)
(** ** Polling a job                                                      *)
(* ===================================================================== *)

Lemma reachable_created_at {L : PyLib} (t : Q) (jobs : mem_jobs) (job_id : string)
    (doc : gmap string pyval) :
  reachable t jobs -> jobs !! job_id = Some doc ->
  doc !! "created_ts" = Some (VFloat (created_at doc)).
Proof.
  intros Hr Hjob. apply reachable_wf in Hr.
  destruct (wf_created _ _ (Hr _ _ Hjob)) as (ts & Hts & _).
  unfold created_at. now rewrite Hts.
Qed.

(** C9: a poll for an identifier that names no stored job raises the 404
    error "Job not found" and leaves the store as it was. *)
Theorem status_unknown_job_404 {L : PyLib} (jobs : mem_jobs) (job_id : string) (t0 now : Q) :
  jobs !! job_id = None ->
  status job_id t0 now jobs = (Raise (HTTPException 404 "Job not found"), jobs).
Proof.
  intros Hnone. unfold status. run_M.
  (* [get_job] finds nothing: the handler raises before any update *)
  rewrite Hnone. reflexivity.
Qed.

Lemma status_unknown_job_404_witness :
  Sample.created !! "no-such-job" = None /\
  status (L := RefLib.lib) "no-such-job" 1001 1001 Sample.created
  = (Raise (HTTPException 404 "Job not found"), Sample.created).
Proof.
  assert (Hnone : Sample.created !! "no-such-job" = None) by (vm_compute; reflexivity).
  split; [exact Hnone | exact (status_unknown_job_404 _ _ _ _ Hnone)].
Defined.



(* ===================================================================== *)
(** ** The example clips                                                  *)
(* ===================================================================== *)

Section ExampleClips.
Context {L : PyLib}.
Variables (doc : gmap string pyval) (s ar : string).
Hypothesis Hcl : doc !! "clip_length" = Some (VStr s).
Hypothesis Har : doc !! "aspect_ratio" = Some (VStr ar).

Lemma example_clips_auto :
  s = "auto" ->
  example_clips doc = Ok [VDict (first_clip 30 ar); VDict (second_clip ar)].
Proof.
  intros ->. unfold example_clips. rewrite Hcl, Har. reflexivity.
Qed.

Lemma example_clips_numeric (d : Q) :
  s <> "auto" -> float_of_str s = Some d ->
  example_clips doc = Ok [VDict (first_clip d ar); VDict (second_clip ar)].
Proof.
  intros Hne Hd. apply String.eqb_neq in Hne.
  unfold example_clips. rewrite Hcl, Har.
  cbv [default from_option id ne_str]. rewrite Hne.
  cbv [negb Clip.make opt_str opt_float]. rewrite Hd. reflexivity.
Qed.

Lemma example_clips_invalid :
  s <> "auto" -> float_of_str s = None ->
  example_clips doc = Raise ValidationError.
Proof.
  intros Hne Hd. apply String.eqb_neq in Hne.
  unfold example_clips. rewrite Hcl, Har.
  cbv [default from_option id ne_str]. rewrite Hne.
  cbv [negb Clip.make opt_str opt_float]. rewrite Hd. reflexivity.
Qed.
End ExampleClips.

(* ===================================================================== *)
(** ** Polls at or after the deadline                                     *)
(* ===================================================================== *)

Lemma completed_response_done {L : PyLib} (t ts : Q) (doc : gmap string pyval)
    (cl : list pyval) :
  job_done t ts doc cl -> completed_response doc = Ok (completed_update cl).
Proof.
  intros [H1 _ H3 H4 H5 _]. unfold completed_response.
  rewrite H1, H3, H4, H5. reflexivity.
Qed.

Lemma completed_response_update {L : PyLib} (doc : gmap string pyval) (cl : list pyval) :
  completed_response (completed_update cl ∪ doc) = Ok (completed_update cl).
Proof.
  unfold completed_response. upd_lookup. reflexivity.
Qed.

(** When the two clips validate, a poll at or after the deadline answers
    "completed", 100 and the two clips, and the record holds the clips. *)
Lemma status_after_deadline {L : PyLib} (t : Q) (jobs : mem_jobs) (job_id : string)
    (doc : gmap string pyval) (t0 now : Q) (cl : list pyval) :
  reachable t jobs -> jobs !! job_id = Some doc ->
  (PROCESS_SECONDS <= elapsed_time (created_at doc) now)%Q ->
  example_clips doc = Ok cl ->
  exists jobs' doc',
    status job_id t0 now jobs = (Ok (completed_update cl), jobs') /\
    jobs' !! job_id = Some doc' /\ doc' !! "clips" = Some (VList cl) /\
    (truthy (default VNone (doc !! "clips")) = true -> jobs' = jobs).
Proof.
  intros Hr Hjob He Hcl.
  pose proof (reachable_created_at _ _ _ _ Hr Hjob) as Hts.
  pose proof (reachable_wf _ _ Hr _ _ Hjob) as Hwf.
  destruct (truthy (default VNone (doc !! "clips"))) eqn:Hclips.
  - destruct (job_wf_clips_truthy _ _ Hwf Hclips) as (ts & cl' & _ & Hdone).
    assert (cl' = cl) as ->.
    { pose proof (done_example _ _ _ _ Hdone) as Hex. congruence. }
    exists jobs, doc.
    rewrite (status_completed jobs job_id doc _ t0 now Hjob Hts He Hclips).
    rewrite (completed_response_done _ _ _ _ Hdone).
    repeat split; try assumption. apply (done_clips _ _ _ _ Hdone).
  - eexists _, _.
    rewrite (status_completing jobs job_id doc _ t0 now Hjob Hts cl He Hclips Hcl).
    rewrite completed_response_update.
    repeat split; [apply lookup_insert_eq | now upd_lookup | discriminate].
Qed.

(** A job whose clip length is neither "auto" nor a number never completes:
    every poll at or after the deadline raises, and nothing is stored. *)
Lemma status_after_deadline_invalid {L : PyLib} (t : Q) (jobs : mem_jobs) (job_id : string)
    (doc : gmap string pyval) (t0 now : Q) (s : string) :
  reachable t jobs -> jobs !! job_id = Some doc ->
  (PROCESS_SECONDS <= elapsed_time (created_at doc) now)%Q ->
  doc !! "clip_length" = Some (VStr s) -> s <> "auto" -> float_of_str s = None ->
  status job_id t0 now jobs = (Raise ValidationError, jobs).
Proof.
  intros Hr Hjob He Hs Hne Hnone.
  pose proof (reachable_created_at _ _ _ _ Hr Hjob) as Hts.
  pose proof (reachable_wf _ _ Hr _ _ Hjob) as Hwf.
  destruct (wf_aspect_ratio _ _ Hwf) as (ar & Har).
  pose proof (example_clips_invalid doc s ar Hs Har Hne Hnone) as Hbad.
  apply (status_completing_raises jobs job_id doc _ t0 now Hjob Hts); try assumption.
  destruct (truthy (default VNone (doc !! "clips"))) eqn:Hclips; [| reflexivity].
  destruct (job_wf_clips_truthy _ _ Hwf Hclips) as (ts & cl & _ & Hdone).
  pose proof (done_example _ _ _ _ Hdone). congruence.
Qed.

(** C2, where the code departs from it: a job created with
    [clip_length=short] is accepted and stored, and ten seconds later the
    poll raises pydantic's ValidationError instead of answering
    "completed", 100 and two clips; the record stays as it was. *)
Theorem status_after_deadline_short_raises :
  Sample.created_short !! Sample.job_a
  = Some (stored_doc (L := RefLib.lib) None (Some "https://a") None "short" "auto" "true"
            Sample.job_a 1000) /\
  status (L := RefLib.lib) Sample.job_a 1010 1010 Sample.created_short
  = (Raise ValidationError, Sample.created_short).
Proof.
  assert (Hlook : Sample.created_short !! Sample.job_a
    = Some (stored_doc (L := RefLib.lib) None (Some "https://a") None "short" "auto" "true"
              Sample.job_a 1000)).
  { unfold Sample.created_short.
    rewrite process_accepts by (right; vm_compute; discriminate).
    apply lookup_insert_eq. }
  split; [exact Hlook |].
  eapply (status_after_deadline_invalid (L := RefLib.lib) 1000 _ _ _ _ _ "short").
  - apply (reach_process 0 ∅); [apply reach_init | discriminate].
  - exact Hlook.
  - vm_compute. discriminate.
  - reflexivity.
  - discriminate.
  - vm_compute. reflexivity.
Qed.

(* ===================================================================== *)
(** ** Repeated polls before the deadline                                 *)
(* ===================================================================== *)

Section PollSeq.
Context {L : PyLib}.
Variables (job_id : string) (ts : Q).

Lemma poll_seq_before (reads : list (Q * Q)) :
  forall (jobs : mem_jobs) (doc : gmap string pyval),
    jobs !! job_id = Some doc ->
    doc !! "created_ts" = Some (VFloat ts) ->
    Forall (fun r => (elapsed_time ts r.2 < PROCESS_SECONDS)%Q) reads ->
    exists jobs', poll_seq job_id reads jobs = (Ok (List.map (answer ts) reads), jobs').
Proof.
  induction reads as [| [t0 now] reads IH]; intros jobs doc Hjob Hts Hall.
  - exists jobs. reflexivity.
  - apply Forall_cons_iff in Hall as [He Hall]. cbn [snd] in He.
    destruct (IH (<[job_id := processing_update (progress_pct (elapsed_time ts now)) ∪ doc]> jobs)
                 (processing_update (progress_pct (elapsed_time ts now)) ∪ doc))
      as (jobs' & Hrest).
    + apply lookup_insert_eq.
    + now upd_lookup.
    + assumption.
    + exists jobs'. cbn [poll_seq List.map]. cbv [mbind M_bind].
      rewrite (status_before jobs job_id doc ts t0 now Hjob Hts He), Hrest.
      reflexivity.
Qed.

Lemma answers_in_range (reads : list (Q * Q)) :
  Forall (fun r => (elapsed_time ts r.2 < PROCESS_SECONDS)%Q) reads ->
  progress_in 10 100 (List.map (answer ts) reads).
Proof.
  intros Hall. unfold progress_in. rewrite Forall_map.
  eapply Forall_impl; [exact Hall |]. intros [t0 now] He. cbn [snd] in He.
  exists (progress_pct (elapsed_time ts now)). split; [reflexivity |].
  apply progress_pct_range; [apply elapsed_time_nonneg | exact He].
Qed.

Lemma answers_sorted (reads : list (Q * Q)) :
  StronglySorted Qle (List.map snd reads) ->
  Forall (fun r => (elapsed_time ts r.2 < PROCESS_SECONDS)%Q) reads ->
  StronglySorted progress_le (List.map (answer ts) reads).
Proof.
  induction reads as [| [t0 now] reads IH]; intros Hsorted Hall; [constructor |].
  apply Forall_cons_iff in Hall as [He Hall]. cbn [snd] in He.
  cbn [List.map snd] in Hsorted. apply StronglySorted_inv in Hsorted as [Hrest Hfirst].
  cbn [List.map]. constructor; [now apply IH |].
  rewrite Forall_map. rewrite Forall_map in Hfirst.
  rewrite Forall_forall in *. intros [t0' now'] Hin.
  specialize (Hfirst _ Hin). specialize (Hall _ Hin). cbn [snd] in *.
  exists (progress_pct (elapsed_time ts now)), (progress_pct (elapsed_time ts now')).
  repeat split.
  apply progress_pct_mono;
    [apply elapsed_time_nonneg | now apply elapsed_time_mono | exact Hall].
Qed.
End PollSeq.

(** C3, as the code has it: polls of one stored job, made in the order of
    the clock while less than 10 seconds have passed since its creation,
    all answer, their progress values never decrease, and each value is at
    least 10 and below 100. *)
Theorem poll_seq_progress_monotone {L : PyLib} (t : Q) (jobs : mem_jobs) (job_id : string)
    (doc : gmap string pyval) (reads : list (Q * Q)) :
  reachable t jobs -> jobs !! job_id = Some doc ->
  Sorted Qle (List.map snd reads) ->
  Forall (fun r => (elapsed_time (created_at doc) r.2 < 10)%Q) reads ->
  exists resps jobs',
    poll_seq job_id reads jobs = (Ok resps, jobs') /\
    length resps = length reads /\
    StronglySorted progress_le resps /\
    progress_in 10 100 resps.
Proof.
  intros Hr Hjob Hsorted Hall.
  pose proof (reachable_created_at _ _ _ _ Hr Hjob) as Hts.
  destruct (poll_seq_before job_id _ reads jobs doc Hjob Hts Hall) as (jobs' & Hrun).
  eexists _, jobs'. split; [exact Hrun |].
  split; [apply length_map |].
  split; [| now apply answers_in_range].
  apply answers_sorted; [| exact Hall].
  apply Sorted_StronglySorted; [| exact Hsorted].
  intros x y z. apply Qle_trans.
Qed.

Lemma poll_seq_progress_monotone_witness :
  exists resps jobs',
    poll_seq (L := RefLib.lib) Sample.job_a
      [(1001, 1001); (1004, 1004.5); (1004.5, 1009.9)]%Q Sample.created
    = (Ok resps, jobs') /\
    length resps = 3%nat /\
    StronglySorted progress_le resps /\
    progress_in 10 100 resps.
Proof.
  apply (poll_seq_progress_monotone (L := RefLib.lib) 1000 Sample.created Sample.job_a _
           [(1001, 1001); (1004, 1004.5); (1004.5, 1009.9)]%Q
           sample_created_reachable sample_created_lookup).
  - repeat constructor; discriminate.
  - repeat constructor; vm_compute; reflexivity.
Defined.

(** C3 as stated fails: a poll 9.5 seconds after creation reports 95, which
    is not below 95. *)
Lemma poll_progress_reaches_95 :
  exists resps jobs',
    poll_seq (L := RefLib.lib) Sample.job_a [(1009.5, 1009.5)]%Q Sample.created
    = (Ok resps, jobs') /\
    (elapsed_time (created_at (stored_doc (L := RefLib.lib) None (Some "https://a") None
                                 "auto" "auto" "true" Sample.job_a 1000)) 1009.5 < 10)%Q /\
    List.map progress_of resps = [Some 95%Z] /\
    ~ progress_in 10 95 resps.
Proof.
  destruct (poll_seq_before (L := RefLib.lib) Sample.job_a 1000 [(1009.5, 1009.5)]%Q
              Sample.created _ sample_created_lookup) as (jobs' & Hrun).
  - reflexivity.
  - repeat constructor.
  - eexists _, jobs'. split; [exact Hrun |].
    split; [vm_compute; reflexivity |].
    split; [vm_compute; reflexivity |].
    intros Hin. apply Forall_cons_iff in Hin as [(p & Hp & Hrange) _].
    vm_compute in Hp. injection Hp as <-. lia.
Qed.

(* ===================================================================== *)
(** ** The shape of a response                                            *)
(* ===================================================================== *)

(** The three ways a poll of a stored job can end. *)
Lemma status_cases {L : PyLib} (t : Q) (jobs : mem_jobs) (job_id : string)
    (doc : gmap string pyval) (t0 now : Q) :
  reachable t jobs -> jobs !! job_id = Some doc ->
  ((elapsed_time (created_at doc) now < PROCESS_SECONDS)%Q /\
   exists pct jobs', status job_id t0 now jobs = (Ok (processing_response pct), jobs')) \/
  ((PROCESS_SECONDS <= elapsed_time (created_at doc) now)%Q /\
   exists c1 c2 jobs', status job_id t0 now jobs
                       = (Ok (completed_update [VDict c1; VDict c2]), jobs')) \/
  ((PROCESS_SECONDS <= elapsed_time (created_at doc) now)%Q /\
   exists e, status job_id t0 now jobs = (Raise e, jobs)).
Proof.
  intros Hr Hjob.
  pose proof (reachable_created_at _ _ _ _ Hr Hjob) as Hts.
  pose proof (reachable_wf _ _ Hr _ _ Hjob) as Hwf.
  destruct (Qlt_le_dec (elapsed_time (created_at doc) now) PROCESS_SECONDS) as [He | He].
  - left. split; [exact He |]. eexists _, _.
    apply (status_before jobs job_id doc _ t0 now Hjob Hts He).
  - right. destruct (example_clips doc) as [cl | e] eqn:Hcl.
    + left. split; [exact He |].
      destruct (example_clips_two _ _ Hcl) as (c1 & c2 & ->).
      destruct (status_after_deadline t jobs job_id doc t0 now _ Hr Hjob He Hcl)
        as (jobs' & _ & Hrun & _).
      eauto.
    + right. split; [exact He |]. exists e.
      apply (status_completing_raises jobs job_id doc _ t0 now Hjob Hts); try assumption.
      destruct (truthy (default VNone (doc !! "clips"))) eqn:Hclips; [| reflexivity].
      destruct (job_wf_clips_truthy _ _ Hwf Hclips) as (ts & cl & _ & Hdone).
      pose proof (done_example _ _ _ _ Hdone). congruence.
Qed.

(** C4, as the code has it: every response to a poll of a stored job has
    status, progress as an integer, and message; a response at or after the
    deadline also has clips, the list of the two example clips, and a
    response before the deadline has no clips key.  Before the deadline the
    poll always answers; at or after it the poll answers when the two
    clips validate. *)
Theorem status_response_keys {L : PyLib} (t : Q) (jobs : mem_jobs) (job_id : string)
    (doc : gmap string pyval) (t0 now : Q) :
  reachable t jobs -> jobs !! job_id = Some doc ->
  (forall resp jobs',
     status job_id t0 now jobs = (Ok resp, jobs') ->
     (exists s, resp !! "status" = Some (VStr s)) /\
     (exists n, resp !! "progress" = Some (VInt n)) /\
     (exists m, resp !! "message" = Some (VStr m)) /\
     ((elapsed_time (created_at doc) now < 10)%Q -> resp !! "clips" = None) /\
     ((10 <= elapsed_time (created_at doc) now)%Q ->
      exists c1 c2, resp !! "clips" = Some (VList [VDict c1; VDict c2]))) /\
  ((elapsed_time (created_at doc) now < 10)%Q ->
   exists resp jobs', status job_id t0 now jobs = (Ok resp, jobs')) /\
  ((10 <= elapsed_time (created_at doc) now)%Q ->
   (exists cl, example_clips doc = Ok cl) ->
   exists resp jobs', status job_id t0 now jobs = (Ok resp, jobs')).
Proof.
  intros Hr Hjob. split; [| split].
  - destruct (status_cases t jobs job_id doc t0 now Hr Hjob)
      as [(He & pct & jobs1 & Hrun) | [(He & c1 & c2 & jobs1 & Hrun) | (He & e & Hrun)]];
      unfold PROCESS_SECONDS in He;
      intros resp jobs'; rewrite Hrun; intros [= <- <-];
      repeat split; eauto; try reflexivity; intros; lra.
  - intros He.
    pose proof (reachable_created_at _ _ _ _ Hr Hjob) as Hts.
    eexists _, _. apply (status_before jobs job_id doc _ t0 now Hjob Hts He).
  - intros He (cl & Hcl).
    destruct (status_after_deadline t jobs job_id doc t0 now cl Hr Hjob He Hcl)
      as (jobs' & _ & Hrun & _).
    eauto.
Qed.

Lemma status_response_keys_witness :
  exists resp jobs',
    status (L := RefLib.lib) Sample.job_a 1005 1005 Sample.created = (Ok resp, jobs') /\
    (exists s, resp !! "status" = Some (VStr s)) /\
    (exists n, resp !! "progress" = Some (VInt n)) /\
    (exists m, resp !! "message" = Some (VStr m)) /\
    resp !! "clips" = None.
Proof.
  destruct (status_response_keys (L := RefLib.lib) 1000 Sample.created Sample.job_a _
              1005 1005 sample_created_reachable sample_created_lookup)
    as (Hshape & Hbefore & _).
  assert (He : (elapsed_time
                  (created_at (stored_doc (L := RefLib.lib) None (Some "https://a") None
                                 "auto" "auto" "true" Sample.job_a 1000)) 1005 < 10)%Q)
    by (vm_compute; reflexivity).
  destruct (Hbefore He) as (resp & jobs' & Hrun).
  destruct (Hshape resp jobs' Hrun) as (Hs & Hp & Hm & Hc & _).
  exists resp, jobs'. repeat split; auto.
Defined.

(** C4 as stated fails: the response of a poll before the deadline has no
    clips key. *)
Lemma status_processing_no_clips :
  exists resp jobs',
    status (L := RefLib.lib) Sample.job_a 1005 1005 Sample.created = (Ok resp, jobs') /\
    resp !! "clips" = None /\
    ~ (exists v, resp !! "clips" = Some v).
Proof.
  eexists _, _. split.
  - apply (status_before (L := RefLib.lib) Sample.created Sample.job_a _ 1000 1005 1005
             sample_created_lookup); [reflexivity | vm_compute; reflexivity].
  - split; [reflexivity |]. intros [v Hv]. discriminate.
Qed.

(* ===================================================================== *)
(** ** Completed jobs                                                     *)
(* ===================================================================== *)

Lemma has_clips_done {L : PyLib} (t : Q) (jobs : mem_jobs) (job_id : string)
    (doc : gmap string pyval) (c : pyval) (cs : list pyval) :
  reachable t jobs -> jobs !! job_id = Some doc ->
  doc !! "clips" = Some (VList (c :: cs)) ->
  truthy (default VNone (doc !! "clips")) = true /\
  job_done t (created_at doc) doc (c :: cs).
Proof.
  intros Hr Hjob Hclips.
  pose proof (reachable_wf _ _ Hr _ _ Hjob) as Hwf.
  assert (Htruthy : truthy (default VNone (doc !! "clips")) = true)
    by (rewrite Hclips; reflexivity).
  split; [exact Htruthy |].
  destruct (job_wf_clips_truthy _ _ Hwf Htruthy) as (ts & cl & Hts & Hdone).
  pose proof (done_clips _ _ _ _ Hdone) as Hcl. rewrite Hclips in Hcl.
  injection Hcl as <-. unfold created_at. rewrite Hts. exact Hdone.
Qed.

(** No poll writes the clips of a job that has some. *)
Lemma status_keeps_clips {L : PyLib} (t : Q) (jobs : mem_jobs) (job_id : string)
    (doc : gmap string pyval) (c : pyval) (cs : list pyval) (t0 now : Q) :
  reachable t jobs -> jobs !! job_id = Some doc ->
  doc !! "clips" = Some (VList (c :: cs)) ->
  exists doc', (status job_id t0 now jobs).2 !! job_id = Some doc' /\
               doc' !! "clips" = Some (VList (c :: cs)).
Proof.
  intros Hr Hjob Hclips.
  pose proof (reachable_created_at _ _ _ _ Hr Hjob) as Hts.
  destruct (has_clips_done t jobs job_id doc c cs Hr Hjob Hclips) as [Htruthy _].
  destruct (Qlt_le_dec (elapsed_time (created_at doc) now) PROCESS_SECONDS) as [He | He].
  - rewrite (status_before jobs job_id doc _ t0 now Hjob Hts He). cbn [snd].
    eexists. split; [apply lookup_insert_eq | now upd_lookup].
  - rewrite (status_completed jobs job_id doc _ t0 now Hjob Hts He Htruthy). cbn [snd].
    eauto.
Qed.

(** C5: once the record of a job has clips, polls do not make them again
    or change them: two polls made after the job was completed both answer
    with the stored clip list, neither changes the store, and no poll at
    all changes the clips of the record. *)
Theorem status_completed_idempotent {L : PyLib} (t : Q) (jobs : mem_jobs) (job_id : string)
    (doc : gmap string pyval) (c : pyval) (cs : list pyval) (t0 now t0' now' : Q) :
  reachable t jobs -> jobs !! job_id = Some doc ->
  doc !! "clips" = Some (VList (c :: cs)) ->
  (t <= now)%Q -> (now <= now')%Q ->
  (exists r1 r2,
     status job_id t0 now jobs = (Ok r1, jobs) /\
     status job_id t0' now' jobs = (Ok r2, jobs) /\
     r1 !! "clips" = Some (VList (c :: cs)) /\
     r2 !! "clips" = r1 !! "clips") /\
  (forall t1 now1, exists doc',
     (status job_id t1 now1 jobs).2 !! job_id = Some doc' /\
     doc' !! "clips" = Some (VList (c :: cs))).
Proof.
  intros Hr Hjob Hclips Hnow Hnow'. split.
  - pose proof (reachable_created_at _ _ _ _ Hr Hjob) as Hts.
    destruct (has_clips_done t jobs job_id doc c cs Hr Hjob Hclips) as [Htruthy Hdone].
    pose proof (done_time _ _ _ _ Hdone) as Hlate.
    assert (He : (PROCESS_SECONDS <= elapsed_time (created_at doc) now)%Q)
      by (apply elapsed_time_ge; [reflexivity | lra]).
    assert (He' : (PROCESS_SECONDS <= elapsed_time (created_at doc) now')%Q)
      by (apply elapsed_time_ge; [reflexivity | lra]).
    exists (completed_update (c :: cs)), (completed_update (c :: cs)).
    rewrite (status_completed jobs job_id doc _ t0 now Hjob Hts He Htruthy).
    rewrite (status_completed jobs job_id doc _ t0' now' Hjob Hts He' Htruthy).
    rewrite (completed_response_done _ _ _ _ Hdone).
    repeat split; reflexivity.
  - intros t1 now1. exact (status_keeps_clips t jobs job_id doc c cs t1 now1 Hr Hjob Hclips).
Qed.

Lemma sample_finished_lookup :
  exists doc, Sample.finished !! Sample.job_a = Some doc /\
    doc !! "clips" = Some (VList [VDict (first_clip 30 "auto"); VDict (second_clip "auto")]).
Proof.
  destruct (status_after_deadline (L := RefLib.lib) 1000 Sample.created Sample.job_a _
              1012 1012 [VDict (first_clip 30 "auto"); VDict (second_clip "auto")]
              sample_created_reachable sample_created_lookup)
    as (jobs' & doc' & Hrun & Hjob & Hclips & _);
    [ vm_compute; discriminate
    | apply (example_clips_auto _ "auto" "auto"); reflexivity |].
  exists doc'. unfold Sample.finished. rewrite Hrun. split; assumption.
Qed.

Lemma status_completed_idempotent_witness :
  exists r1 r2,
    status (L := RefLib.lib) Sample.job_a 1013 1013 Sample.finished = (Ok r1, Sample.finished) /\
    status (L := RefLib.lib) Sample.job_a 1020 1020 Sample.finished = (Ok r2, Sample.finished) /\
    r1 !! "clips"
    = Some (VList [VDict (first_clip 30 "auto"); VDict (second_clip "auto")]) /\
    r2 !! "clips" = r1 !! "clips".
Proof.
  destruct sample_finished_lookup as (doc & Hjob & Hclips).
  apply (status_completed_idempotent (L := RefLib.lib) 1012 Sample.finished Sample.job_a doc
           _ _ 1013 1013 1020 1020 sample_finished_reachable Hjob Hclips);
    discriminate.
Defined.

(* ===================================================================== *)
(** ** The options of a job and its first clip                            *)
(* ===================================================================== *)

(** Polls never write the options a job was created with. *)
Lemma status_keeps_options {L : PyLib} (t : Q) (jobs : mem_jobs) (job_id jid : string)
    (doc : gmap string pyval) (t0 now : Q) :
  reachable t jobs -> jobs !! jid = Some doc ->
  exists doc', (status job_id t0 now jobs).2 !! jid = Some doc' /\
               doc' !! "clip_length" = doc !! "clip_length" /\
               doc' !! "aspect_ratio" = doc !! "aspect_ratio" /\
               doc' !! "created_ts" = doc !! "created_ts".
Proof.
  intros Hr Hjid.
  destruct (jobs !! job_id) as [d |] eqn:Hjob.
  2:{ rewrite status_unknown by assumption. eauto. }
  pose proof (reachable_created_at _ _ _ _ Hr Hjob) as Hts.
  destruct (Qlt_le_dec (elapsed_time (created_at d) now) PROCESS_SECONDS) as [He | He].
  - rewrite (status_before jobs job_id d _ t0 now Hjob Hts He). cbn [snd].
    rewrite lookup_insert. case_decide as Heq; [| eauto].
    subst jid. rewrite Hjob in Hjid. injection Hjid as ->.
    eexists. split; [reflexivity |]. now upd_lookup.
  - destruct (truthy (default VNone (d !! "clips"))) eqn:Hclips.
    + rewrite (status_completed jobs job_id d _ t0 now Hjob Hts He Hclips). eauto.
    + destruct (example_clips d) as [cl | e] eqn:Hcl.
      * rewrite (status_completing jobs job_id d _ t0 now Hjob Hts cl He Hclips Hcl).
        cbn [snd]. rewrite lookup_insert. case_decide as Heq; [| eauto].
        subst jid. rewrite Hjob in Hjid. injection Hjid as ->.
        eexists. split; [reflexivity |]. now upd_lookup.
      * rewrite (status_completing_raises jobs job_id d _ t0 now Hjob Hts e He Hclips Hcl).
        eauto.
Qed.

(** C7: for a job whose clip length is "45", the first of the two clips
    a poll at or after the deadline answers with has the duration
    [float("45")], and the second has 20; for a job whose clip length is
    "auto" the first has 30 and the second 20.  The clip length of the
    record is the one of the request ([stored_doc_fields]) and polls leave
    it alone ([status_keeps_options]). *)
Theorem first_clip_duration {L : PyLib} (t : Q) (jobs : mem_jobs) (job_id : string)
    (doc : gmap string pyval) (t0 now : Q) (d45 : Q) :
  reachable t jobs -> jobs !! job_id = Some doc ->
  (10 <= elapsed_time (created_at doc) now)%Q ->
  float_of_str "45" = Some d45 -> (d45 == 45)%Q ->
  (doc !! "clip_length" = Some (VStr "45") ->
   exists jobs' c1 c2 d,
     status job_id t0 now jobs
     = (Ok (completed_update [VDict c1; VDict c2]), jobs') /\
     c1 !! "duration" = Some (VFloat d) /\ (d == 45)%Q /\
     c2 !! "duration" = Some (VFloat 20)) /\
  (doc !! "clip_length" = Some (VStr "auto") ->
   exists jobs' c1 c2,
     status job_id t0 now jobs
     = (Ok (completed_update [VDict c1; VDict c2]), jobs') /\
     c1 !! "duration" = Some (VFloat 30) /\
     c2 !! "duration" = Some (VFloat 20)).
Proof.
  intros Hr Hjob He H45 Heq.
  pose proof (reachable_wf _ _ Hr _ _ Hjob) as Hwf.
  destruct (wf_aspect_ratio _ _ Hwf) as (ar & Har).
  split; intros Hcl.
  - pose proof (example_clips_numeric doc "45" ar Hcl Har d45) as Hex.
    destruct (status_after_deadline t jobs job_id doc t0 now _ Hr Hjob He
                (Hex ltac:(discriminate) H45)) as (jobs' & _ & Hrun & _).
    exists jobs', (first_clip d45 ar), (second_clip ar), d45.
    split; [exact Hrun |]. repeat split; [exact Heq |..]; reflexivity.
  - pose proof (example_clips_auto doc "auto" ar Hcl Har eq_refl) as Hex.
    destruct (status_after_deadline t jobs job_id doc t0 now _ Hr Hjob He Hex)
      as (jobs' & _ & Hrun & _).
    exists jobs', (first_clip 30 ar), (second_clip ar).
    split; [exact Hrun |]. split; reflexivity.
Qed.

Lemma sample_created_45_lookup :
  Sample.created_45 !! Sample.job_a
  = Some (stored_doc (L := RefLib.lib) None (Some "https://a") None "45" "9:16" "true"
            Sample.job_a 1000).
Proof.
  unfold Sample.created_45. rewrite process_accepts by (right; vm_compute; discriminate).
  apply lookup_insert_eq.
Qed.

Lemma first_clip_duration_witness :
  (exists jobs' c1 c2 d,
     status (L := RefLib.lib) Sample.job_a 1010 1010 Sample.created_45
     = (Ok (completed_update [VDict c1; VDict c2]), jobs') /\
     c1 !! "duration" = Some (VFloat d) /\ (d == 45)%Q /\
     c2 !! "duration" = Some (VFloat 20)) /\
  (exists jobs' c1 c2,
     status (L := RefLib.lib) Sample.job_a 1010 1010 Sample.created
     = (Ok (completed_update [VDict c1; VDict c2]), jobs') /\
     c1 !! "duration" = Some (VFloat 30) /\
     c2 !! "duration" = Some (VFloat 20)).
Proof.
  split.
  - apply (first_clip_duration (L := RefLib.lib) 1000 Sample.created_45 Sample.job_a _
             1010 1010 45 sample_created_45_reachable sample_created_45_lookup);
      [vm_compute; discriminate | vm_compute; reflexivity | reflexivity | reflexivity].
  - apply (first_clip_duration (L := RefLib.lib) 1000 Sample.created Sample.job_a _
             1010 1010 45 sample_created_reachable sample_created_lookup);
      [vm_compute; discriminate | vm_compute; reflexivity | reflexivity | reflexivity].
Defined.

(* ===================================================================== *)
(** ** Creating a job                                                     *)
(* ===================================================================== *)

Lemma str_in_elem_of (x : string) (l : list string) : str_in x l = true <-> x ∈ l.
Proof.
  unfold str_in. rewrite existsb_exists, list_elem_of_In. split.
  - intros (y & Hin & Heq). apply String.eqb_eq in Heq. now subst y.
  - intros Hin. exists x. split; [assumption | apply String.eqb_refl].
Qed.

Lemma str_truthy_nonempty (s : string) : str_truthy s = true <-> s <> "".
Proof.
  unfold str_truthy. rewrite negb_true_iff. apply String.eqb_neq.
Qed.

Lemma parsed_links_spec {L : PyLib} (sources : option string) :
  parsed_links sources = Spec.parsed_sources sources.
Proof.
  unfold parsed_links, Spec.parsed_sources. destruct sources as [s |]; [| reflexivity].
  destruct (decide (s = "")) as [-> | Hne]; [reflexivity |].
  apply str_truthy_nonempty in Hne. rewrite Hne.
  destruct (json_loads s) as [[| | | | | xs |] |]; try reflexivity.
  induction xs as [| x xs IH]; [reflexivity |].
  cbn [omap list_omap flat_map]. rewrite IH. now destruct x.
Qed.

Lemma link_list_spec {L : PyLib} (source_url sources : option string) :
  link_list source_url sources = Spec.link_list source_url sources.
Proof.
  unfold link_list, Spec.link_list. rewrite parsed_links_spec.
  destruct source_url as [u |]; [| reflexivity].
  destruct (decide (u = "" \/ u ∈ Spec.parsed_sources sources)) as [[-> | Hin] | Hno].
  - reflexivity.
  - apply str_in_elem_of in Hin. rewrite Hin. now rewrite andb_false_r.
  - assert (Hu : str_truthy u = true) by (apply str_truthy_nonempty; tauto).
    assert (Hn : str_in u (Spec.parsed_sources sources) = false).
    { apply not_true_iff_false. rewrite str_in_elem_of. tauto. }
    now rewrite Hu, Hn.
Qed.

Lemma link_list_empty {L : PyLib} (source_url sources : option string) :
  link_list source_url sources = [] <->
  ~ Spec.supplied_url source_url /\ ~ Spec.supplied_links sources.
Proof.
  rewrite link_list_spec. unfold Spec.link_list, Spec.supplied_url, Spec.supplied_links.
  destruct source_url as [u |].
  - destruct (decide (u = "" \/ u ∈ Spec.parsed_sources sources)) as [[-> | Hin] | Hno].
    + split.
      * intros ->. split; [intros (u & [= <-] & Hne); congruence | tauto].
      * intros [_ Hnil]. destruct (Spec.parsed_sources sources);
        [reflexivity | exfalso; apply Hnil; discriminate].
    + split.
      * intros Hnil. rewrite Hnil in Hin. now apply elem_of_nil in Hin.
      * intros [_ Hnil]. destruct (Spec.parsed_sources sources);
        [reflexivity | exfalso; apply Hnil; discriminate].
    + split.
      * intros Hnil. now apply app_eq_nil in Hnil as [_ [=]].
      * intros [Hnone _]. exfalso. apply Hnone. exists u. split; [reflexivity | tauto].
  - split.
    + intros ->. split; [intros (u & [=] & _) | tauto].
    + intros [_ Hnil]. destruct (Spec.parsed_sources sources);
        [reflexivity | exfalso; apply Hnil; discriminate].
Qed.

Lemma stored_doc_sources {L : PyLib} (su so : option string) (cl ar ah jid : string)
    (now : Q) :
  stored_doc None su so cl ar ah jid now !! "sources"
  = Some (VList (VStr <$> link_list su so)) /\
  stored_doc None su so cl ar ah jid now !! "source_type" = Some (VStr "links").
Proof.
  unfold stored_doc, job_doc, Job.model_dump. split; reflexivity.
Qed.

(** C6: the link list of a request is the list of the strings of
    [sources] when that is a JSON array (nothing otherwise, malformed text
    included) with [source_url] put at its end unless it is there already.
    The request is refused exactly when there is no file and this list is
    empty, and a request without a file stores this list as the job's
    sources.  With sources ["https://a","https://b"] and source_url
    "https://a" the list is "https://a", "https://b". *)
Theorem link_list_as_specified {L : PyLib} (jobs : mem_jobs) (file : option UploadFile)
    (source_url sources : option string)
    (clip_length aspect_ratio auto_highlights uuid4_hex : string) (now : Q) :
  link_list source_url sources = Spec.link_list source_url sources /\
  (process file source_url sources clip_length aspect_ratio auto_highlights uuid4_hex now jobs
   = (Raise (HTTPException 400 "Provide a file or at least one link"), jobs)
   <-> file = None /\ Spec.link_list source_url sources = []) /\
  (file = None -> Spec.link_list source_url sources <> [] ->
   exists doc,
     (process file source_url sources clip_length aspect_ratio auto_highlights
        uuid4_hex now jobs).2 !! uuid4_hex = Some doc /\
     doc !! "sources" = Some (VList (VStr <$> Spec.link_list source_url sources))) /\
  (json_loads Sample.two_links = Some (JArr [JStr "https://a"; JStr "https://b"]) ->
   link_list (Some "https://a") (Some Sample.two_links) = ["https://a"; "https://b"]).
Proof.
  split; [apply link_list_spec |]. split; [| split].
  - rewrite <- link_list_spec. split.
    + intros Hrun. destruct file as [f |].
      * rewrite process_accepts in Hrun by now left. discriminate.
      * split; [reflexivity |].
        destruct (link_list source_url sources) eqn:Hll; [reflexivity |].
        rewrite process_accepts in Hrun by (right; congruence). discriminate.
    + intros [-> Hll]. now apply process_rejects.
  - intros -> Hne. rewrite <- link_list_spec in *.
    rewrite process_accepts by now right. cbn [snd].
    eexists. split; [apply lookup_insert_eq | apply stored_doc_sources].
  - intros Hjson. unfold link_list, parsed_links. rewrite Hjson. reflexivity.
Qed.

Lemma link_list_as_specified_witness :
  link_list (L := RefLib.lib) (Some "https://a") (Some Sample.two_links)
  = ["https://a"; "https://b"].
Proof.
  apply (link_list_as_specified (L := RefLib.lib) ∅ None None None "auto" "auto" "true"
           Sample.job_a 0).
  vm_compute. reflexivity.
Defined.

(** C8: a request with no file, no source URL and no sources that parse
    to a list with a string in it is refused with the 400 error and the
    store stays as it was; a request with at least one of the three is
    accepted, answers with its job identifier, and its job is stored. *)
Theorem process_requires_input {L : PyLib} (jobs : mem_jobs) (file : option UploadFile)
    (source_url sources : option string)
    (clip_length aspect_ratio auto_highlights uuid4_hex : string) (now : Q) :
  (file = None /\ ~ Spec.supplied_url source_url /\ ~ Spec.supplied_links sources ->
   process file source_url sources clip_length aspect_ratio auto_highlights uuid4_hex now jobs
   = (Raise (HTTPException 400 "Provide a file or at least one link"), jobs)) /\
  (file <> None \/ Spec.supplied_url source_url \/ Spec.supplied_links sources ->
   exists doc,
     process file source_url sources clip_length aspect_ratio auto_highlights
       uuid4_hex now jobs
     = (Ok {["job_id" := VStr uuid4_hex]}, <[uuid4_hex := doc]> jobs)).
Proof.
  split.
  - intros (Hfile & Hurl & Hlinks). apply process_rejects; [exact Hfile |].
    now apply link_list_empty.
  - intros Hin. eexists. apply process_accepts.
    destruct file as [f |]; [now left | right].
    intros Hnil. apply link_list_empty in Hnil as [Hurl Hlinks].
    destruct Hin as [Hf | [Hu | Hl]]; [congruence | tauto | tauto].
Qed.

Lemma process_requires_input_witness :
  process (L := RefLib.lib) None None (Some "not json") "auto" "auto" "true"
    Sample.job_a 1000 ∅
  = (Raise (HTTPException 400 "Provide a file or at least one link"), ∅) /\
  exists doc,
    process (L := RefLib.lib) None None (Some Sample.two_links) "auto" "auto" "true"
      Sample.job_a 1000 ∅
    = (Ok {["job_id" := VStr Sample.job_a]}, <[Sample.job_a := doc]> ∅).
Proof.
  split.
  - apply (process_requires_input (L := RefLib.lib)).
    split; [reflexivity |]. split.
    + intros (u & [=] & _).
    + intros Hl. apply Hl. vm_compute. reflexivity.
  - apply (process_requires_input (L := RefLib.lib)).
    right. right. vm_compute. discriminate.
Defined.

(** C10: a request that comes with a file is stored with source type
    "file" and with [None] as its sources, whatever links came with it: the
    answer and the store are the same for any other links. *)
Theorem process_file_discards_links {L : PyLib} (jobs : mem_jobs) (f : UploadFile)
    (source_url sources : option string)
    (clip_length aspect_ratio auto_highlights uuid4_hex : string) (now : Q) :
  exists doc,
    process (Some f) source_url sources clip_length aspect_ratio auto_highlights
      uuid4_hex now jobs
    = (Ok {["job_id" := VStr uuid4_hex]}, <[uuid4_hex := doc]> jobs) /\
    doc !! "source_type" = Some (VStr "file") /\
    doc !! "sources" = Some VNone /\
    forall source_url' sources',
      process (Some f) source_url' sources' clip_length aspect_ratio auto_highlights
        uuid4_hex now jobs
      = (Ok {["job_id" := VStr uuid4_hex]}, <[uuid4_hex := doc]> jobs).
Proof.
  eexists. split; [apply process_accepts; now left |].
  split; [reflexivity |]. split; [reflexivity |].
  intros su' so'. rewrite process_accepts by now left. reflexivity.
Qed.

(* ===================================================================== *)
(** ** The job store                                                      *)
(* ===================================================================== *)

(** X1: a record saved under an identifier is the one [get_job] finds
    there, with the identifier added as ["_id"] and every other key as it
    was given; the records under other identifiers are the ones that were
    there before. *)
Theorem save_job_then_get_job (jobs : mem_jobs) (jid : string) (doc : gmap string pyval) :
  exists stored,
    save_job jid doc jobs = (Ok jid, <[jid := stored]> jobs) /\
    get_job jid (save_job jid doc jobs).2 = (Ok (Some stored), (save_job jid doc jobs).2) /\
    stored !! "_id" = Some (VStr jid) /\
    (forall k, k <> "_id" -> stored !! k = doc !! k) /\
    (forall j, j <> jid ->
       get_job j (save_job jid doc jobs).2 = (Ok (jobs !! j), (save_job jid doc jobs).2)).
Proof.
  exists (<["_id" := VStr jid]> doc). unfold save_job, get_job. cbn [snd].
  split; [reflexivity |].
  split; [now rewrite lookup_insert_eq |].
  split; [apply lookup_insert_eq |].
  split.
  - intros k Hk. now apply lookup_insert_ne.
  - intros j Hj. now rewrite lookup_insert_ne.
Qed.

(** X2: [update_job] on an identifier that is not stored does nothing: it
    creates no record.  On a stored one it merges: the keys of the update
    read as the update has them, the other keys as the record had them, and
    the other records are left alone. *)
Theorem update_job_merges (jobs : mem_jobs) (jid : string) (updates : gmap string pyval) :
  (jobs !! jid = None -> update_job jid updates jobs = (Ok tt, jobs)) /\
  (forall doc, jobs !! jid = Some doc ->
     exists doc',
       (update_job jid updates jobs).2 !! jid = Some doc' /\
       (forall k v, updates !! k = Some v -> doc' !! k = Some v) /\
       (forall k, updates !! k = None -> doc' !! k = doc !! k)) /\
  (forall j, j <> jid -> (update_job jid updates jobs).2 !! j = jobs !! j).
Proof.
  unfold update_job. split; [| split].
  - intros Hnone. now rewrite Hnone.
  - intros doc Hdoc. rewrite Hdoc. cbn [snd].
    exists (updates ∪ doc). split; [apply lookup_insert_eq |]. split.
    + intros k v Hk. now apply lookup_union_Some_l.
    + intros k Hk. now apply lookup_union_r.
  - intros j Hj. destruct (jobs !! jid); cbn [snd]; [now apply lookup_insert_ne | reflexivity].
Qed.

Lemma update_job_merges_witness :
  update_job "missing" {["progress" := VInt 50]} Sample.created = (Ok tt, Sample.created) /\
  exists doc',
    (update_job Sample.job_a {["progress" := VInt 50]} Sample.created).2 !! Sample.job_a
    = Some doc' /\
    doc' !! "progress" = Some (VInt 50) /\
    doc' !! "clip_length" = Some (VStr "auto").
Proof.
  split.
  - apply (update_job_merges Sample.created "missing"). vm_compute. reflexivity.
  - destruct (update_job_merges Sample.created Sample.job_a {["progress" := VInt 50]})
      as (_ & Hmerge & _).
    destruct (Hmerge _ sample_created_lookup) as (doc' & Hget & Hnew & Hold).
    exists doc'. split; [exact Hget |]. split.
    + apply Hnew. reflexivity.
    + rewrite Hold by reflexivity. reflexivity.
Defined.

(** X3: two updates of one record in a row are one update with the merged
    fields, the later update winning on the keys both have; so an update
    made twice is the update made once. *)
Theorem update_job_twice (jobs : mem_jobs) (jid : string) (u1 u2 : gmap string pyval) :
  (update_job jid u2 (update_job jid u1 jobs).2).2 = (update_job jid (u2 ∪ u1) jobs).2 /\
  (update_job jid u1 (update_job jid u1 jobs).2).2 = (update_job jid u1 jobs).2.
Proof.
  assert (Hcomp : forall v1 v2 : gmap string pyval,
            (update_job jid v2 (update_job jid v1 jobs).2).2
            = (update_job jid (v2 ∪ v1) jobs).2).
  { intros v1 v2. unfold update_job. destruct (jobs !! jid) as [doc |] eqn:Hdoc; cbn [snd].
    - rewrite lookup_insert_eq. cbn [snd].
      now rewrite insert_insert_eq, (assoc_L (∪)).
    - now rewrite Hdoc. }
  split; [apply Hcomp |].
  rewrite Hcomp. now rewrite (idemp_L (∪)).
Qed.

(* ===================================================================== *)
(** ** More on creating a job                                             *)
(* ===================================================================== *)

(** X4: the link list starts with the strings of [sources] in their order
    and has at most one more entry; its members are these strings and the
    source URL when one is given; and when the strings of [sources] are
    pairwise different, so are the links. *)
Theorem link_list_members {L : PyLib} (source_url sources : option string) :
  (exists tail, link_list source_url sources = (parsed_links sources ++ tail)%list /\
                (length tail <= 1)%nat) /\
  (forall x, x ∈ link_list source_url sources <->
             x ∈ parsed_links sources \/ (source_url = Some x /\ x <> "")) /\
  (NoDup (parsed_links sources) -> NoDup (link_list source_url sources)).
Proof.
  unfold link_list. destruct source_url as [u |].
  2:{ split; [exists []; split; [now rewrite app_nil_r | cbn; lia] |].
      split; [| auto]. intros x. split; [auto | intros [Hx | [[=] _]]; exact Hx]. }
  destruct (str_truthy u) eqn:Hu; cbn [andb].
  2:{ apply not_true_iff_false in Hu. rewrite str_truthy_nonempty in Hu.
      split; [exists []; split; [now rewrite app_nil_r | cbn; lia] |].
      split; [| auto]. intros x. split; [auto |].
      intros [Hx | [[= ->] Hne]]; [exact Hx | tauto]. }
  apply str_truthy_nonempty in Hu.
  destruct (str_in u (parsed_links sources)) eqn:Hin; cbn [negb].
  - apply str_in_elem_of in Hin.
    split; [exists []; split; [now rewrite app_nil_r | cbn; lia] |].
    split; [| auto]. intros x. split; [auto |].
    intros [Hx | [[= ->] _]]; assumption.
  - apply not_true_iff_false in Hin. rewrite str_in_elem_of in Hin.
    split; [exists [u]; split; [reflexivity | cbn; lia] |]. split.
    + intros x. rewrite elem_of_app, list_elem_of_singleton. split.
      * intros [Hx | ->]; [now left | right; split; [reflexivity | exact Hu]].
      * intros [Hx | [[= ->] _]]; [now left | now right].
    + intros Hnd. apply NoDup_app. split; [exact Hnd |]. split.
      * intros x Hx Hxu. apply list_elem_of_singleton in Hxu. now subst x.
      * apply NoDup_singleton.
Qed.

(** X5: the flag [auto_highlights] is read without regard to letter case:
    two requests whose values differ only in case are handled alike, and
    the stored flag is true exactly when the lower-case value is one of
    "true", "1", "yes", "on". *)
Theorem auto_highlights_ignores_case {L : PyLib} (jobs : mem_jobs)
    (file : option UploadFile) (source_url sources : option string)
    (clip_length aspect_ratio ah ah' uuid4_hex : string) (now : Q) :
  str_lower ah = str_lower ah' ->
  process file source_url sources clip_length aspect_ratio ah uuid4_hex now jobs
  = process file source_url sources clip_length aspect_ratio ah' uuid4_hex now jobs /\
  stored_doc file source_url sources clip_length aspect_ratio ah uuid4_hex now
    !! "auto_highlights" = Some (VBool (auto_h ah)) /\
  (auto_h ah = true <-> str_lower ah ∈ ["true"; "1"; "yes"; "on"]).
Proof.
  intros Hlow. split; [| split].
  - unfold process, job_doc. now rewrite Hlow.
  - reflexivity.
  - apply str_in_elem_of.
Qed.

Lemma auto_highlights_ignores_case_witness :
  process (L := RefLib.lib) None (Some "https://a") None "auto" "auto" "On"
    Sample.job_a 1000 ∅
  = process (L := RefLib.lib) None (Some "https://a") None "auto" "auto" "oN"
      Sample.job_a 1000 ∅ /\
  auto_h "On" = true /\ auto_h "0" = false.
Proof.
  destruct (auto_highlights_ignores_case (L := RefLib.lib) ∅ None (Some "https://a") None
              "auto" "auto" "On" "oN" Sample.job_a 1000 eq_refl) as (Hsame & _ & _).
  split; [exact Hsame |]. split; reflexivity.
Defined.

(** X6: a request leaves every record stored under another identifier as
    it was.  A refused request changes nothing at all; an accepted one
    puts a fresh record under its identifier, replacing whatever record
    was stored there before. *)
Theorem process_touches_one_id {L : PyLib} (jobs : mem_jobs) (file : option UploadFile)
    (source_url sources : option string)
    (clip_length aspect_ratio auto_highlights uuid4_hex : string) (now : Q) :
  let run := process file source_url sources clip_length aspect_ratio auto_highlights
               uuid4_hex now jobs in
  (forall j, j <> uuid4_hex -> run.2 !! j = jobs !! j) /\
  (forall e, run.1 = Raise e -> run.2 = jobs) /\
  (forall resp, run.1 = Ok resp ->
     run.2 !! uuid4_hex
     = Some (stored_doc file source_url sources clip_length aspect_ratio auto_highlights
               uuid4_hex now)).
Proof.
  cbv zeta.
  assert (Hcases :
    (file = None /\ link_list source_url sources = []) \/
    (is_some file = true \/ link_list source_url sources <> [])).
  { destruct file; [right; now left |].
    destruct (link_list source_url sources); [now left | right; right; discriminate]. }
  destruct Hcases as [[Hf Hl] | Hacc].
  - rewrite process_rejects by assumption. cbn [fst snd].
    split; [reflexivity |]. split; [reflexivity | discriminate].
  - rewrite process_accepts by assumption. cbn [fst snd].
    split; [intros j Hj; now apply lookup_insert_ne |].
    split; [discriminate |]. intros _ _. apply lookup_insert_eq.
Qed.




(* ===================================================================== *)
(** ** More on polling a job                                              *)
(* ===================================================================== *)

Lemma status_keys_out (k : string) :
  k ∉ status_keys ->
  k <> "status" /\ k <> "progress" /\ k <> "message" /\ k <> "clips".
Proof.
  unfold status_keys. rewrite !not_elem_of_cons. tauto.
Qed.

Lemma processing_update_other (pct : Z) (doc : gmap string pyval) (k : string) :
  k ∉ status_keys -> (processing_update pct ∪ doc) !! k = doc !! k.
Proof.
  intros Hk. apply status_keys_out in Hk as (H1 & H2 & H3 & H4).
  apply lookup_union_r. unfold processing_update.
  rewrite !lookup_insert_ne by congruence. apply lookup_empty.
Qed.

Lemma completed_update_other (cl : list pyval) (doc : gmap string pyval)
    (k : string) :
  k ∉ status_keys -> (completed_update cl ∪ doc) !! k = doc !! k.
Proof.
  intros Hk. apply status_keys_out in Hk as (H1 & H2 & H3 & H4).
  apply lookup_union_r. unfold completed_update.
  rewrite !lookup_insert_ne by congruence. apply lookup_empty.
Qed.

(** The four ways a poll of a stored job ends, with the store it leaves. *)
Lemma status_outcomes {L : PyLib} (t : Q) (jobs : mem_jobs) (job_id : string)
    (doc : gmap string pyval) (t0 now : Q) :
  reachable t jobs -> jobs !! job_id = Some doc ->
  let e := elapsed_time (created_at doc) now in
  ((e < PROCESS_SECONDS)%Q /\
   status job_id t0 now jobs
   = (Ok (processing_response (progress_pct e)),
      <[job_id := processing_update (progress_pct e) ∪ doc]> jobs)) \/
  ((PROCESS_SECONDS <= e)%Q /\ doc !! "clips" = Some VNone /\
   exists c1 c2,
     example_clips doc = Ok [VDict c1; VDict c2] /\
     status job_id t0 now jobs
     = (Ok (completed_update [VDict c1; VDict c2]),
        <[job_id := completed_update [VDict c1; VDict c2] ∪ doc]> jobs)) \/
  ((PROCESS_SECONDS <= e)%Q /\
   exists c1 c2,
     job_done t (created_at doc) doc [VDict c1; VDict c2] /\
     status job_id t0 now jobs = (Ok (completed_update [VDict c1; VDict c2]), jobs)) \/
  ((PROCESS_SECONDS <= e)%Q /\ doc !! "clips" = Some VNone /\
   exists err, example_clips doc = Raise err /\
               status job_id t0 now jobs = (Raise err, jobs)).
Proof.
  intros Hr Hjob e.
  pose proof (reachable_created_at _ _ _ _ Hr Hjob) as Hts.
  pose proof (reachable_wf _ _ Hr _ _ Hjob) as Hwf.
  destruct (Qlt_le_dec e PROCESS_SECONDS) as [He | He].
  { left. split; [exact He |].
    apply (status_before jobs job_id doc _ t0 now Hjob Hts He). }
  right. destruct (truthy (default VNone (doc !! "clips"))) eqn:Hclips.
  - right. left. split; [exact He |].
    destruct (job_wf_clips_truthy _ _ Hwf Hclips) as (ts & cl & Hts' & Hdone).
    rewrite Hts in Hts'. injection Hts' as <-.
    destruct (example_clips_two _ _ (done_example _ _ _ _ Hdone)) as (c1 & c2 & ->).
    exists c1, c2. split; [exact Hdone |].
    rewrite (status_completed jobs job_id doc _ t0 now Hjob Hts He Hclips).
    now rewrite (completed_response_done _ _ _ _ Hdone).
  - pose proof (job_wf_clips_falsy _ _ Hwf Hclips) as Hnone.
    destruct (example_clips doc) as [cl | err] eqn:Hcl.
    + left. split; [exact He |]. split; [exact Hnone |].
      destruct (example_clips_two _ _ Hcl) as (c1 & c2 & ->).
      exists c1, c2. split; [reflexivity |].
      rewrite (status_completing jobs job_id doc _ t0 now Hjob Hts _ He Hclips Hcl).
      now rewrite completed_response_update.
    + right. right. split; [exact He |]. split; [exact Hnone |].
      exists err. split; [reflexivity |].
      apply (status_completing_raises jobs job_id doc _ t0 now Hjob Hts err He Hclips Hcl).
Qed.

(** X8: a poll adds no record and removes none, leaves the records of the
    other jobs as they were, and in the record of the polled job changes
    nothing but the keys status, progress, message and clips. *)
Theorem status_writes_only {L : PyLib} (t : Q) (jobs : mem_jobs) (job_id : string)
    (t0 now : Q) :
  reachable t jobs ->
  (forall j, (status job_id t0 now jobs).2 !! j = None <-> jobs !! j = None) /\
  (forall j, j <> job_id -> (status job_id t0 now jobs).2 !! j = jobs !! j) /\
  (forall doc, jobs !! job_id = Some doc ->
     exists doc',
       (status job_id t0 now jobs).2 !! job_id = Some doc' /\
       forall k, k ∉ status_keys -> doc' !! k = doc !! k).
Proof.
  intros Hr.
  destruct (jobs !! job_id) as [doc |] eqn:Hjob.
  2:{ rewrite status_unknown by assumption. cbn [snd].
      split; [reflexivity |]. split; [reflexivity | discriminate]. }
  assert (Hstore :
    (status job_id t0 now jobs).2 = jobs \/
    exists doc', (status job_id t0 now jobs).2 = <[job_id := doc']> jobs /\
                 forall k, k ∉ status_keys -> doc' !! k = doc !! k).
  { destruct (status_outcomes t jobs job_id doc t0 now Hr Hjob)
      as [(_ & Hrun) | [(_ & _ & c1 & c2 & _ & Hrun)
         | [(_ & c1 & c2 & _ & Hrun) | (_ & _ & err & _ & Hrun)]]];
      rewrite Hrun; cbn [snd]; auto; right; eexists; (split; [reflexivity |]); intros k Hk.
    - now apply processing_update_other.
    - now apply completed_update_other. }
  destruct Hstore as [-> | (doc' & -> & Hkeys)].
  - split; [reflexivity |]. split; [reflexivity |].
    intros d [= <-]. rewrite Hjob. eauto.
  - split; [| split].
    + intros j. rewrite lookup_insert. case_decide as Hj; [| reflexivity].
      subst j. rewrite Hjob. split; discriminate.
    + intros j Hj. now apply lookup_insert_ne.
    + intros d [= <-]. exists doc'. split; [apply lookup_insert_eq | exact Hkeys].
Qed.

Lemma status_writes_only_witness :
  exists doc',
    (status (L := RefLib.lib) Sample.job_a 1012 1012 Sample.created).2 !! Sample.job_a
    = Some doc' /\
    doc' !! "created_ts" = Some (VFloat 1000) /\
    doc' !! "_id" = Some (VStr Sample.job_a).
Proof.
  destruct (status_writes_only (L := RefLib.lib) 1000 Sample.created Sample.job_a 1012 1012
              sample_created_reachable) as (_ & _ & Hkeep).
  destruct (Hkeep _ sample_created_lookup) as (doc' & Hget & Hkeys).
  exists doc'. split; [exact Hget |].
  assert (Hout : forall k, k <> "status" -> k <> "progress" -> k <> "message" ->
                           k <> "clips" -> k ∉ status_keys).
  { intros k H1 H2 H3 H4. unfold status_keys. rewrite !not_elem_of_cons.
    pose proof (not_elem_of_nil k). tauto. }
  split.
  - rewrite (Hkeys "created_ts") by (apply Hout; discriminate). reflexivity.
  - rewrite (Hkeys "_id") by (apply Hout; discriminate). reflexivity.
Defined.

(** X9: a poll repeated at the same reading of the clock answers the same
    and leaves the store as the first poll left it: the record is
    overwritten, nothing accumulates. *)
Theorem status_same_reading_twice {L : PyLib} (t : Q) (jobs : mem_jobs) (job_id : string)
    (t0 now : Q) :
  reachable t jobs ->
  status job_id t0 now (status job_id t0 now jobs).2 = status job_id t0 now jobs.
Proof.
  intros Hr.
  destruct (jobs !! job_id) as [doc |] eqn:Hjob.
  2:{ rewrite (status_unknown t0 now jobs job_id Hjob). cbn [snd].
      apply (status_unknown t0 now jobs job_id Hjob). }
  pose proof (reachable_created_at _ _ _ _ Hr Hjob) as Hts.
  destruct (status_outcomes t jobs job_id doc t0 now Hr Hjob)
    as [(He & Hrun) | [(He & _ & c1 & c2 & _ & Hrun)
       | [(_ & c1 & c2 & _ & Hrun) | (_ & _ & err & _ & Hrun)]]];
    rewrite Hrun; cbn [snd]; try exact Hrun.
  - (* before the deadline: the same fields are written again *)
    set (pct := progress_pct (elapsed_time (created_at doc) now)) in *.
    rewrite (status_before _ job_id (processing_update pct ∪ doc) (created_at doc) t0 now
               (lookup_insert_eq _ _ _)); [| now upd_lookup | exact He].
    fold pct. rewrite insert_insert_eq, (assoc_L (∪)), (idemp_L (∪)). reflexivity.
  - (* the first poll made the clips: the second finds them *)
    set (cl := [VDict c1; VDict c2]) in *.
    rewrite (status_completed _ job_id (completed_update cl ∪ doc) (created_at doc) t0 now
               (lookup_insert_eq _ _ _)); [| now upd_lookup | exact He | now upd_lookup].
    now rewrite completed_response_update.
Qed.

Lemma status_same_reading_twice_witness :
  status (L := RefLib.lib) Sample.job_a 1005 1005
    (status (L := RefLib.lib) Sample.job_a 1005 1005 Sample.created).2
  = status (L := RefLib.lib) Sample.job_a 1005 1005 Sample.created.
Proof.
  exact (status_same_reading_twice (L := RefLib.lib) 1000 Sample.created Sample.job_a
           1005 1005 sample_created_reachable).
Defined.

(** X10: every stored job is in one of three stages: queued with progress
    10 and no clips, processing with a progress from 10 to 99 and no
    clips, or completed with progress 100 and two clips.  The status
    "failed" of the schema is never stored. *)
Theorem reachable_job_life {L : PyLib} (t : Q) (jobs : mem_jobs) :
  reachable t jobs ->
  forall jid doc, jobs !! jid = Some doc -> job_life doc.
Proof.
  induction 1 as [t | t jobs file su so cl ar ah uuid now Hr IH Hle
                    | t jobs job_id t0 now Hr IH Hle0 Hle1];
    intros jid doc Hdoc.
  - rewrite lookup_empty in Hdoc. discriminate.
  - destruct (is_some file) eqn:Hfile; [| destruct (link_list su so) eqn:Hll].
    + rewrite process_accepts in Hdoc by now left. cbn [snd] in Hdoc.
      rewrite lookup_insert in Hdoc. case_decide; [| now apply (IH jid)].
      injection Hdoc as <-. left.
      destruct (stored_doc_fields file su so cl ar ah uuid now)
        as (_ & _ & Hs & Hp & _ & _ & _ & Hc). auto.
    + destruct file; [discriminate |].
      rewrite process_rejects in Hdoc by auto. now apply (IH jid).
    + rewrite process_accepts in Hdoc by (right; congruence). cbn [snd] in Hdoc.
      rewrite lookup_insert in Hdoc. case_decide; [| now apply (IH jid)].
      injection Hdoc as <-. left.
      destruct (stored_doc_fields file su so cl ar ah uuid now)
        as (_ & _ & Hs & Hp & _ & _ & _ & Hc). auto.
  - destruct (jobs !! job_id) as [d |] eqn:Hjob.
    2:{ rewrite status_unknown in Hdoc by assumption. now apply (IH jid). }
    pose proof (reach_status t jobs job_id t0 now Hr Hle0 Hle1) as Hr'.
    pose proof (reachable_wf _ _ Hr' _ _ Hdoc) as Hwf.
    destruct (status_outcomes t jobs job_id d t0 now Hr Hjob)
      as [(He & Hrun) | [(He & _ & c1 & c2 & _ & Hrun)
         | [(_ & c1 & c2 & _ & Hrun) | (_ & _ & err & _ & Hrun)]]];
      rewrite Hrun in Hdoc; cbn [snd] in Hdoc; try (now apply (IH jid)).
    + rewrite lookup_insert in Hdoc. case_decide; [| now apply (IH jid)].
      injection Hdoc as <-. right. left.
      split; [now upd_lookup |]. split.
      * eexists. split; [now upd_lookup |].
        apply progress_pct_range; [apply elapsed_time_nonneg | exact He].
      * destruct (wf_created _ _ Hwf) as (ts & _ & _ & [Hnone | (cl' & Hdone)]);
          [exact Hnone |].
        pose proof (done_status _ _ _ _ Hdone) as Hst.
        revert Hst. upd_lookup. discriminate.
    + rewrite lookup_insert in Hdoc. case_decide; [| now apply (IH jid)].
      injection Hdoc as <-. right. right.
      split; [now upd_lookup |]. split; [now upd_lookup |].
      exists c1, c2. now upd_lookup.
Qed.

Lemma reachable_job_life_witness :
  exists doc, Sample.finished !! Sample.job_a = Some doc /\ job_life doc.
Proof.
  destruct sample_finished_lookup as (doc & Hjob & _).
  exists doc. split; [exact Hjob |].
  exact (reachable_job_life (L := RefLib.lib) 1012 Sample.finished
           sample_finished_reachable Sample.job_a doc Hjob).
Defined.

(** X11: when a poll answers, the record it leaves has the status and the
    progress of the answer, and the clips of a "completed" answer; and an
    answer has progress 100 exactly when its status is "completed". *)
Theorem status_answer_matches_record {L : PyLib} (t : Q) (jobs : mem_jobs)
    (job_id : string) (t0 now : Q) (resp : gmap string pyval) (jobs' : mem_jobs) :
  reachable t jobs ->
  status job_id t0 now jobs = (Ok resp, jobs') ->
  exists doc',
    jobs' !! job_id = Some doc' /\
    doc' !! "status" = resp !! "status" /\
    doc' !! "progress" = resp !! "progress" /\
    (resp !! "status" = Some (VStr "completed") -> doc' !! "clips" = resp !! "clips") /\
    (resp !! "progress" = Some (VInt 100) <-> resp !! "status" = Some (VStr "completed")).
Proof.
  intros Hr Hrun.
  destruct (jobs !! job_id) as [doc |] eqn:Hjob.
  2:{ rewrite status_unknown in Hrun by assumption. discriminate. }
  destruct (status_outcomes t jobs job_id doc t0 now Hr Hjob)
    as [(He & Hrun') | [(He & _ & c1 & c2 & _ & Hrun')
       | [(_ & c1 & c2 & Hdone & Hrun') | (_ & _ & err & _ & Hrun')]]];
    rewrite Hrun' in Hrun; [| | | discriminate]; injection Hrun as <- <-.
  - pose proof (progress_pct_range _ (elapsed_time_nonneg (created_at doc) now) He)
      as Hrange.
    eexists. split; [apply lookup_insert_eq |].
    split; [now upd_lookup |]. split; [now upd_lookup |].
    split; [discriminate |].
    split; [| discriminate].
    intros Hp. change (Some (VInt (progress_pct (elapsed_time (created_at doc) now)))
                       = Some (VInt 100)) in Hp.
    injection Hp as Hp. lia.
  - eexists. split; [apply lookup_insert_eq |].
    split; [now upd_lookup |]. split; [now upd_lookup |].
    split; [intros _; now upd_lookup |]. split; reflexivity.
  - exists doc. split; [exact Hjob |].
    split; [apply (done_status _ _ _ _ Hdone) |].
    split; [apply (done_progress _ _ _ _ Hdone) |].
    split; [intros _; apply (done_clips _ _ _ _ Hdone) |]. split; reflexivity.
Qed.

Lemma status_answer_matches_record_witness :
  exists resp jobs' doc',
    status (L := RefLib.lib) Sample.job_a 1005 1005 Sample.created = (Ok resp, jobs') /\
    jobs' !! Sample.job_a = Some doc' /\
    doc' !! "progress" = resp !! "progress".
Proof.
  destruct (status (L := RefLib.lib) Sample.job_a 1005 1005 Sample.created)
    as [[resp | err] jobs'] eqn:Hrun.
  - destruct (status_answer_matches_record (L := RefLib.lib) 1000 Sample.created
                Sample.job_a 1005 1005 resp jobs' sample_created_reachable Hrun)
      as (doc' & Hget & _ & Hp & _).
    exists resp, jobs', doc'. auto.
  - exfalso.
    rewrite (status_before (L := RefLib.lib) Sample.created Sample.job_a _ 1000 1005 1005
               sample_created_lookup) in Hrun;
      [discriminate | reflexivity | vm_compute; reflexivity].
Defined.

(** X12: for a job whose clip length is "auto" or reads as a number, a
    poll at or after the deadline answers "completed", 100 and exactly two
    clips; both clips carry the aspect ratio of the job, the first has the
    duration of the clip length (30 for "auto"), and the record holds the
    same two clips afterwards. *)
Theorem completion_with_valid_clip_length {L : PyLib} (t : Q) (jobs : mem_jobs)
    (job_id : string) (doc : gmap string pyval) (t0 now : Q) (s : string) (d : Q) :
  reachable t jobs -> jobs !! job_id = Some doc ->
  (10 <= elapsed_time (created_at doc) now)%Q ->
  doc !! "clip_length" = Some (VStr s) ->
  s = "auto" \/ float_of_str s = Some d ->
  exists ar jobs' doc' c1 c2,
    doc !! "aspect_ratio" = Some (VStr ar) /\
    c1 = first_clip (if String.eqb s "auto" then 30 else d) ar /\
    c2 = second_clip ar /\
    status job_id t0 now jobs = (Ok (completed_update [VDict c1; VDict c2]), jobs') /\
    c1 !! "aspect_ratio" = Some (VStr ar) /\
    c2 !! "aspect_ratio" = Some (VStr ar) /\
    c1 !! "duration" = Some (VFloat (if String.eqb s "auto" then 30 else d)) /\
    jobs' !! job_id = Some doc' /\
    doc' !! "clips" = Some (VList [VDict c1; VDict c2]).
Proof.
  intros Hr Hjob He Hcl Hvalid.
  pose proof (reachable_wf _ _ Hr _ _ Hjob) as Hwf.
  destruct (wf_aspect_ratio _ _ Hwf) as (ar & Har).
  assert (Hex : example_clips doc
                = Ok [VDict (first_clip (if String.eqb s "auto" then 30 else d) ar);
                      VDict (second_clip ar)]).
  { destruct (String.eqb s "auto") eqn:Hs.
    - apply String.eqb_eq in Hs. now apply (example_clips_auto doc s ar).
    - apply String.eqb_neq in Hs. destruct Hvalid as [-> | Hd]; [congruence |].
      now apply (example_clips_numeric doc s ar). }
  destruct (status_after_deadline t jobs job_id doc t0 now _ Hr Hjob He Hex)
    as (jobs' & doc' & Hrun & Hget & Hclips & _).
  exists ar, jobs', doc', (first_clip (if String.eqb s "auto" then 30 else d) ar),
    (second_clip ar).
  repeat split; try assumption; reflexivity.
Qed.

Lemma completion_with_valid_clip_length_witness :
  exists jobs' c1 c2,
    status (L := RefLib.lib) Sample.job_a 1010 1010 Sample.created_45
    = (Ok (completed_update [VDict c1; VDict c2]), jobs') /\
    c1 !! "aspect_ratio" = Some (VStr "9:16") /\
    c2 !! "aspect_ratio" = Some (VStr "9:16") /\
    c1 !! "duration" = Some (VFloat 45).
Proof.
  destruct (completion_with_valid_clip_length (L := RefLib.lib) 1000 Sample.created_45
              Sample.job_a _ 1010 1010 "45" 45
              sample_created_45_reachable sample_created_45_lookup)
    as (ar & jobs' & doc' & c1 & c2 & Har & -> & -> & Hrun & H1 & H2 & H3 & _).
  - vm_compute. discriminate.
  - reflexivity.
  - right. vm_compute. reflexivity.
  - assert (ar = "9:16") as -> by (vm_compute in Har; congruence).
    eexists _, _, _. split; [exact Hrun |]. auto.
Defined.

(** X13: a job whose clip length is neither "auto" nor a number never
    gets clips: its record has none in any store the service reaches, a
    poll before the deadline still answers "processing", and every poll at
    or after the deadline raises the validation error and stores nothing. *)
Theorem invalid_clip_length_never_completes {L : PyLib} (t : Q) (jobs : mem_jobs)
    (job_id : string) (doc : gmap string pyval) (s : string) :
  reachable t jobs -> jobs !! job_id = Some doc ->
  doc !! "clip_length" = Some (VStr s) -> s <> "auto" -> float_of_str s = None ->
  doc !! "clips" = Some VNone /\
  (forall t0 now, (elapsed_time (created_at doc) now < 10)%Q ->
     exists p jobs', status job_id t0 now jobs = (Ok (processing_response p), jobs')) /\
  (forall t0 now, (10 <= elapsed_time (created_at doc) now)%Q ->
     status job_id t0 now jobs = (Raise ValidationError, jobs)).
Proof.
  intros Hr Hjob Hcl Hne Hnone.
  pose proof (reachable_wf _ _ Hr _ _ Hjob) as Hwf.
  pose proof (reachable_created_at _ _ _ _ Hr Hjob) as Hts.
  destruct (wf_aspect_ratio _ _ Hwf) as (ar & Har).
  pose proof (example_clips_invalid doc s ar Hcl Har Hne Hnone) as Hbad.
  split; [| split].
  - destruct (wf_created _ _ Hwf) as (ts & _ & _ & [Hno | (cl & Hdone)]); [exact Hno |].
    pose proof (done_example _ _ _ _ Hdone). congruence.
  - intros t0 now He. eexists _, _.
    apply (status_before jobs job_id doc _ t0 now Hjob Hts He).
  - intros t0 now He.
    now apply (status_after_deadline_invalid t jobs job_id doc t0 now s).
Qed.

Lemma sample_created_short_lookup :
  Sample.created_short !! Sample.job_a
  = Some (stored_doc (L := RefLib.lib) None (Some "https://a") None "short" "auto" "true"
            Sample.job_a 1000).
Proof.
  unfold Sample.created_short. rewrite process_accepts by (right; vm_compute; discriminate).
  apply lookup_insert_eq.
Qed.

Lemma invalid_clip_length_never_completes_witness :
  status (L := RefLib.lib) Sample.job_a 1500 1500 Sample.created_short
  = (Raise ValidationError, Sample.created_short).
Proof.
  assert (Hr : reachable (L := RefLib.lib) 1000 Sample.created_short)
    by (apply (reach_process 0 ∅); [apply reach_init | discriminate]).
  destruct (invalid_clip_length_never_completes (L := RefLib.lib) 1000 Sample.created_short
              Sample.job_a _ "short" Hr sample_created_short_lookup)
    as (_ & _ & Hlate).
  - reflexivity.
  - discriminate.
  - vm_compute. reflexivity.
  - apply Hlate. vm_compute. discriminate.
Defined.

Lemma created_at_processing (pct : Z) (doc : gmap string pyval) :
  created_at (processing_update pct ∪ doc) = created_at doc.
Proof. unfold created_at. now upd_lookup. Qed.

Lemma created_at_completed (cl : list pyval) (doc : gmap string pyval) :
  created_at (completed_update cl ∪ doc) = created_at doc.
Proof. unfold created_at. now upd_lookup. Qed.

(** What a poll that answers reports as progress, and the record it
    leaves under the polled identifier. *)
Lemma status_progress_cases {L : PyLib} (t : Q) (jobs : mem_jobs) (job_id : string)
    (t0 now : Q) (resp : gmap string pyval) (jobs' : mem_jobs) :
  reachable t jobs -> status job_id t0 now jobs = (Ok resp, jobs') ->
  exists doc doc' p,
    jobs !! job_id = Some doc /\ jobs' !! job_id = Some doc' /\
    created_at doc' = created_at doc /\ progress_of resp = Some p /\
    (((elapsed_time (created_at doc) now < PROCESS_SECONDS)%Q /\
      p = progress_pct (elapsed_time (created_at doc) now)) \/
     ((PROCESS_SECONDS <= elapsed_time (created_at doc) now)%Q /\ p = 100%Z)).
Proof.
  intros Hr Hrun.
  destruct (jobs !! job_id) as [doc |] eqn:Hjob.
  2:{ rewrite status_unknown in Hrun by assumption. discriminate. }
  destruct (status_outcomes t jobs job_id doc t0 now Hr Hjob)
    as [(He & Hrun') | [(He & _ & c1 & c2 & _ & Hrun')
       | [(He & c1 & c2 & Hdone & Hrun') | (_ & _ & err & _ & Hrun')]]];
    rewrite Hrun' in Hrun; [| | | discriminate]; injection Hrun as <- <-.
  - eexists doc, _, _. split; [reflexivity |]. split; [apply lookup_insert_eq |].
    split; [apply created_at_processing |]. split; [reflexivity |]. left. auto.
  - eexists doc, _, _. split; [reflexivity |]. split; [apply lookup_insert_eq |].
    split; [apply created_at_completed |]. split; [reflexivity |]. right. auto.
  - exists doc, doc, 100%Z. split; [reflexivity |]. split; [exact Hjob |].
    split; [reflexivity |]. split; [reflexivity |]. right. auto.
Qed.

(** X14: over the whole life of a job the reported progress never goes
    back: of two polls that answer, made in the order of the clock, the
    later reports at least the progress of the earlier, also across the
    deadline. *)
Theorem progress_never_goes_back {L : PyLib} (t : Q) (jobs : mem_jobs) (job_id : string)
    (t0 now1 t0' now2 : Q) (r1 r2 : gmap string pyval) (jobs1 jobs2 : mem_jobs) :
  reachable t jobs ->
  (t <= t0)%Q -> (t0 <= now1)%Q -> (now1 <= now2)%Q ->
  status job_id t0 now1 jobs = (Ok r1, jobs1) ->
  status job_id t0' now2 jobs1 = (Ok r2, jobs2) ->
  progress_le r1 r2.
Proof.
  intros Hr Hle0 Hle1 Hle2 Hrun1 Hrun2.
  assert (Hr1 : reachable now1 jobs1).
  { replace jobs1 with (status job_id t0 now1 jobs).2 by now rewrite Hrun1.
    now apply (reach_status t). }
  destruct (status_progress_cases t jobs job_id t0 now1 r1 jobs1 Hr Hrun1)
    as (doc & doc1 & p1 & Hjob & Hjob1 & Hsame & Hp1 & Hcase1).
  destruct (status_progress_cases now1 jobs1 job_id t0' now2 r2 jobs2 Hr1 Hrun2)
    as (doc1' & doc2 & p2 & Hjob1' & _ & _ & Hp2 & Hcase2).
  rewrite Hjob1 in Hjob1'. injection Hjob1' as <-. rewrite Hsame in Hcase2.
  pose proof (elapsed_time_nonneg (created_at doc) now1) as H0.
  pose proof (elapsed_time_mono (created_at doc) now1 now2 Hle2) as Hmono.
  exists p1, p2. split; [exact Hp1 |]. split; [exact Hp2 |].
  destruct Hcase1 as [[He1 ->] | [He1 ->]]; destruct Hcase2 as [[He2 ->] | [He2 ->]].
  - now apply progress_pct_mono.
  - pose proof (progress_pct_range _ H0 He1). lia.
  - exfalso. lra.
  - lia.
Qed.

Lemma progress_never_goes_back_witness :
  exists r1 r2 jobs1 jobs2,
    status (L := RefLib.lib) Sample.job_a 1004 1004 Sample.created = (Ok r1, jobs1) /\
    status (L := RefLib.lib) Sample.job_a 1011 1011 jobs1 = (Ok r2, jobs2) /\
    progress_le r1 r2.
Proof.
  pose proof (status_before (L := RefLib.lib) Sample.created Sample.job_a _ 1000 1004 1004
                sample_created_lookup eq_refl eq_refl) as Hrun1.
  assert (Hr1 : reachable (L := RefLib.lib) 1004
                  (status (L := RefLib.lib) Sample.job_a 1004 1004 Sample.created).2)
    by (apply (reach_status 1000); [apply sample_created_reachable | discriminate..]).
  rewrite Hrun1 in Hr1. cbn [snd] in Hr1.
  destruct (status_after_deadline (L := RefLib.lib) 1004 _ Sample.job_a _ 1011 1011
              [VDict (first_clip 30 "auto"); VDict (second_clip "auto")] Hr1
              (lookup_insert_eq _ _ _)) as (jobs2 & _ & Hrun2 & _).
  - rewrite created_at_processing. vm_compute. discriminate.
  - apply (example_clips_auto _ "auto" "auto"); now upd_lookup.
  - eexists _, _, _, jobs2. split; [exact Hrun1 |]. split; [exact Hrun2 |].
    refine (progress_never_goes_back (L := RefLib.lib) 1000 Sample.created Sample.job_a
              1004 1004 1011 1011 _ _ _ jobs2 sample_created_reachable _ _ _ Hrun1 Hrun2);
      discriminate.
Defined.

(** X15: every record is stored under its own ["_id"], and its creation
    time is a float that is not later than the last reading of the
    clock. *)
Theorem reachable_id_is_key {L : PyLib} (t : Q) (jobs : mem_jobs) :
  reachable t jobs ->
  forall jid doc, jobs !! jid = Some doc ->
    doc !! "_id" = Some (VStr jid) /\
    exists ts, doc !! "created_ts" = Some (VFloat ts) /\ (ts <= t)%Q.
Proof.
  intros Hr jid doc Hdoc. split.
  2:{ destruct (wf_created _ _ (reachable_wf _ _ Hr _ _ Hdoc)) as (ts & Hts & Hle & _).
      eauto. }
  revert jid doc Hdoc.
  induction Hr as [t | t jobs file su so cl ar ah uuid now Hr IH Hle
                     | t jobs job_id t0 now Hr IH Hle0 Hle1];
    intros jid doc Hdoc.
  - rewrite lookup_empty in Hdoc. discriminate.
  - assert (Hnew : forall jobs0 : mem_jobs,
              (forall j d, jobs0 !! j = Some d -> d !! "_id" = Some (VStr j)) ->
              <[uuid := stored_doc file su so cl ar ah uuid now]> jobs0 !! jid = Some doc ->
              doc !! "_id" = Some (VStr jid)).
    { intros jobs0 Hold. rewrite lookup_insert. case_decide as Hj; [| apply Hold].
      intros [= <-]. subst jid. apply stored_doc_fields. }
    destruct (is_some file) eqn:Hfile; [| destruct (link_list su so) eqn:Hll].
    + rewrite process_accepts in Hdoc by now left. now apply (Hnew jobs).
    + destruct file; [discriminate |].
      rewrite process_rejects in Hdoc by auto. now apply IH.
    + rewrite process_accepts in Hdoc by (right; congruence). now apply (Hnew jobs).
  - destruct (jobs !! job_id) as [d |] eqn:Hjob.
    2:{ rewrite status_unknown in Hdoc by assumption. now apply IH. }
    pose proof (IH _ _ Hjob) as Hid.
    destruct (status_outcomes t jobs job_id d t0 now Hr Hjob)
      as [(_ & Hrun) | [(_ & _ & c1 & c2 & _ & Hrun)
         | [(_ & c1 & c2 & _ & Hrun) | (_ & _ & err & _ & Hrun)]]];
      rewrite Hrun in Hdoc; cbn [snd] in Hdoc; try (now apply IH);
      rewrite lookup_insert in Hdoc; (case_decide as Hj; [| now apply IH]);
      injection Hdoc as <-; subst jid; now upd_lookup.
Qed.

Lemma reachable_id_is_key_witness :
  exists doc, Sample.finished !! Sample.job_a = Some doc /\
              doc !! "_id" = Some (VStr Sample.job_a).
Proof.
  destruct sample_finished_lookup as (doc & Hjob & _).
  exists doc. split; [exact Hjob |].
  exact (proj1 (reachable_id_is_key (L := RefLib.lib) 1012 Sample.finished
                  sample_finished_reachable Sample.job_a doc Hjob)).
Defined.

(* ===================================================================== *)
(** ** The [Clip] model                                                   *)
(* ===================================================================== *)

(** X16: a dumped [Clip] has exactly the five keys of the model, and
    building a [Clip] from the dump gives the clip back. *)
Theorem clip_dump_round_trip {L : PyLib} (c : Clip.t) :
  Clip_model_validate (Clip.model_dump c) = Ok c /\
  dom (Clip.model_dump c)
  = list_to_set ["caption"; "duration"; "aspect_ratio"; "thumbnail_url"; "download_url"].
Proof.
  split.
  - destruct c as [[cap |] [dur |] [ar |] [th |] [dl |]]; reflexivity.
  - unfold Clip.model_dump. rewrite !dom_insert_L, dom_empty_L.
    cbn [list_to_set foldr]. set_solver.
Qed.

(* ===================================================================== *)
(** ** What holds of every stored record                                  *)
(* ===================================================================== *)

(** A property of records holds in every store the service reaches when
    the record of an accepted request has it and the two updates of
    [status] keep it. *)
Lemma reachable_records {L : PyLib} (P : string -> gmap string pyval -> Prop) :
  (forall file su so cl ar ah uuid now,
     is_some file = true \/ link_list su so <> [] ->
     P uuid (stored_doc file su so cl ar ah uuid now)) ->
  (forall jid doc pct, P jid doc -> P jid (processing_update pct ∪ doc)) ->
  (forall jid doc c1 c2, P jid doc -> P jid (completed_update [VDict c1; VDict c2] ∪ doc)) ->
  forall t jobs, reachable t jobs ->
  forall jid doc, jobs !! jid = Some doc -> P jid doc.
Proof.
  intros Hnew Hproc Hdone t jobs Hr.
  induction Hr as [t | t jobs file su so cl ar ah uuid now Hr IH Hle
                     | t jobs job_id t0 now Hr IH Hle0 Hle1];
    intros jid doc Hdoc.
  - rewrite lookup_empty in Hdoc. discriminate.
  - assert (Hacc : is_some file = true \/ link_list su so <> [] ->
                   P jid doc).
    { intros Hacc. rewrite process_accepts in Hdoc by assumption. cbn [snd] in Hdoc.
      rewrite lookup_insert in Hdoc. case_decide as Hj; [| now apply IH].
      injection Hdoc as <-. subst jid. now apply Hnew. }
    destruct (is_some file) eqn:Hfile; [apply Hacc; now left |].
    destruct (link_list su so) eqn:Hll; [| apply Hacc; right; congruence].
    destruct file; [discriminate |].
    rewrite process_rejects in Hdoc by auto. now apply IH.
  - destruct (jobs !! job_id) as [d |] eqn:Hjob.
    2:{ rewrite status_unknown in Hdoc by assumption. now apply IH. }
    pose proof (IH _ _ Hjob) as HP.
    destruct (status_outcomes t jobs job_id d t0 now Hr Hjob)
      as [(_ & Hrun) | [(_ & _ & c1 & c2 & _ & Hrun)
         | [(_ & c1 & c2 & _ & Hrun) | (_ & _ & err & _ & Hrun)]]];
      rewrite Hrun in Hdoc; cbn [snd] in Hdoc; try (now apply IH);
      rewrite lookup_insert in Hdoc; (case_decide as Hj; [| now apply IH]);
      injection Hdoc as <-; subst jid; auto.
Qed.

(** X17: every stored record has exactly thirteen keys, the eleven fields
    of [Job], ["_id"] and ["created_ts"]; polls add no key and drop none,
    and the field [error] is never set. *)
Theorem reachable_record_keys {L : PyLib} (t : Q) (jobs : mem_jobs) (jid : string)
    (doc : gmap string pyval) :
  reachable t jobs -> jobs !! jid = Some doc ->
  dom doc = record_keys /\ doc !! "error" = Some VNone.
Proof.
  intros Hr Hdoc.
  apply (reachable_records (fun _ d => dom d = record_keys /\ d !! "error" = Some VNone))
    with (t := t) (jobs := jobs) (jid := jid); try assumption.
  - intros file su so cl ar ah uuid now _. split; [| reflexivity].
    unfold stored_doc, job_doc, Job.model_dump, record_keys.
    rewrite dom_union_L, dom_singleton_L, !dom_insert_L, dom_empty_L.
    cbn [list_to_set foldr]. set_solver.
  - intros _ d pct [Hdom Herr]. split; [| now upd_lookup].
    unfold processing_update. rewrite dom_union_L, !dom_insert_L, dom_empty_L, Hdom.
    unfold record_keys. cbn [list_to_set foldr]. set_solver.
  - intros _ d c1 c2 [Hdom Herr]. split; [| now upd_lookup].
    unfold completed_update. rewrite dom_union_L, !dom_insert_L, dom_empty_L, Hdom.
    unfold record_keys. cbn [list_to_set foldr]. set_solver.
Qed.

Lemma reachable_record_keys_witness :
  exists doc, Sample.finished !! Sample.job_a = Some doc /\
              dom doc = record_keys /\ doc !! "error" = Some VNone.
Proof.
  destruct sample_finished_lookup as (doc & Hjob & _).
  exists doc. split; [exact Hjob |].
  exact (reachable_record_keys (L := RefLib.lib) 1012 Sample.finished Sample.job_a doc
           sample_finished_reachable Hjob).
Defined.

(** X18: the source of every stored job is consistent: a job made from a
    file keeps no links, and a job made from links has at least one link
    and no file name.  Polls never change this. *)
Theorem reachable_job_source {L : PyLib} (t : Q) (jobs : mem_jobs) (jid : string)
    (doc : gmap string pyval) :
  reachable t jobs -> jobs !! jid = Some doc -> job_source_ok doc.
Proof.
  intros Hr Hdoc.
  apply (reachable_records (fun _ d => job_source_ok d))
    with (t := t) (jobs := jobs) (jid := jid); try assumption.
  - intros file su so cl ar ah uuid now Hacc.
    destruct file as [f |].
    + left. split; reflexivity.
    + right. destruct Hacc as [[=] | Hne].
      destruct (stored_doc_sources su so cl ar ah uuid now) as [Hso Hty].
      split; [exact Hty |]. split; [reflexivity |]. eauto.
  - intros _ d pct [[H1 H2] | (H1 & H2 & l & Hl & H3)]; [left | right];
      repeat split; try (now upd_lookup).
    exists l. split; [exact Hl | now upd_lookup].
  - intros _ d c1 c2 [[H1 H2] | (H1 & H2 & l & Hl & H3)]; [left | right];
      repeat split; try (now upd_lookup).
    exists l. split; [exact Hl | now upd_lookup].
Qed.

Lemma reachable_job_source_witness :
  exists doc, Sample.finished !! Sample.job_a = Some doc /\ job_source_ok doc.
Proof.
  destruct sample_finished_lookup as (doc & Hjob & _).
  exists doc. split; [exact Hjob |].
  exact (reachable_job_source (L := RefLib.lib) 1012 Sample.finished Sample.job_a doc
           sample_finished_reachable Hjob).
Defined.
